(** * The Teams to-do list endpoint: [api/todo/index.js]

    A shallow embedding of the HTTP handler ([module.exports]) and of its
    in-memory store ([class TodoDatabase]), with the ECMAScript operations the
    code relies on: truthiness, [===], [!=], [String.prototype.toLowerCase]
    and the conversion of a string to a number that [!=] performs.

    Conventions of the embedding.
    - A JavaScript number is an IEEE 754 binary64 value: Rocq's primitive
      [float], compared with [PrimFloat.eqb] (NaN differs from itself, the two
      zeros are equal), which is [Number::equal].
    - A JavaScript string is a [string], read as a sequence of code units
      below 256.
    - The values that travel through the store are the primitive values
      (undefined, null, booleans, numbers, strings); a request body is such a
      value or an object whose properties hold such values.
    - The rows of the store are JavaScript objects: they live in a heap and
      [data] is an array of references to them, so that [setColumn] mutates a
      row in place and a row keeps its identity when others are deleted. *)

From Stdlib Require Import PrimFloat SpecFloat FloatOps.
From Stdlib Require Import ZArith Ascii String List Bool.
From stdpp Require Import base option list gmap strings.

Local Open Scope string_scope.
Local Open Scope list_scope.
Local Open Scope Z_scope.

(** ** ECMAScript values *)

Inductive value : Type :=
  | VUndefined
  | VNull
  | VBoolean (b : bool)
  | VNumber (n : float)
  | VString (s : string).

(** [ToBoolean]: what [if (v)] and [v ? a : b] test. *)
Definition ToBoolean (v : value) : bool :=
  match v with
  | VUndefined | VNull => false
  | VBoolean b => b
  | VNumber n => negb (PrimFloat.eqb n 0%float || negb (PrimFloat.eqb n n))
  | VString s => negb (String.eqb s "")
  end.

(** *** [StringToNumber] (ECMA-262, 7.1.4.1.1) *)

Module StringToNumber.

(** [StrWhiteSpaceChar]: the white space and line terminator code units
    below 256 (TAB, LF, VT, FF, CR, SP, NBSP). *)
Definition StrWhiteSpaceChar (c : ascii) : bool :=
  let n := Z.of_N (N_of_ascii c) in
  ((9 <=? n) && (n <=? 13)) || (n =? 32) || (n =? 160).

Definition DecimalDigit (c : ascii) : option Z :=
  let n := Z.of_N (N_of_ascii c) in
  if (48 <=? n) && (n <=? 57) then Some (n - 48) else None.

Definition HexDigit (c : ascii) : option Z :=
  let n := Z.of_N (N_of_ascii c) in
  if (48 <=? n) && (n <=? 57) then Some (n - 48)
  else if (97 <=? n) && (n <=? 102) then Some (n - 87)
  else if (65 <=? n) && (n <=? 70) then Some (n - 55)
  else None.

Definition digit_in (base : Z) (c : ascii) : option Z :=
  match HexDigit c with
  | Some d => if d <? base then Some d else None
  | None => None
  end.

(** The longest prefix of decimal digits, and what follows it. *)
Fixpoint DecimalDigits (cs : list ascii) : list Z * list ascii :=
  match cs with
  | c :: cs' =>
      match DecimalDigit c with
      | Some d => let '(ds, rest) := DecimalDigits cs' in (d :: ds, rest)
      | None => ([], cs)
      end
  | [] => ([], [])
  end.

(** The mathematical value of a digit sequence. *)
Definition MV (base : Z) (ds : list Z) : Z :=
  fold_left (fun acc d => base * acc + d) ds 0.

(** The digits of [cs] when all of it is digits of [base]. *)
Fixpoint Digits (base : Z) (cs : list ascii) : option (list Z) :=
  match cs with
  | [] => Some []
  | c :: cs' =>
      match digit_in base c, Digits base cs' with
      | Some d, Some ds => Some (d :: ds)
      | _, _ => None
      end
  end.

Definition NonDecimalIntegerLiteral (cs : list ascii) : option Z :=
  match cs with
  | "0"%char :: p :: (_ :: _) as ds =>
      let base :=
        if Ascii.eqb p "x" || Ascii.eqb p "X" then Some 16
        else if Ascii.eqb p "o" || Ascii.eqb p "O" then Some 8
        else if Ascii.eqb p "b" || Ascii.eqb p "B" then Some 2
        else None in
      match base with
      | Some b => option_map (MV b) (Digits b ds)
      | None => None
      end
  | _ => None
  end.

(** [ExponentPart], optional: the exponent, when the rest of the literal is
    empty or is an exponent indicator and a signed integer. *)
Definition ExponentPart (cs : list ascii) : option Z :=
  match cs with
  | [] => Some 0
  | e :: cs' =>
      if Ascii.eqb e "e" || Ascii.eqb e "E" then
        let '(neg, ds) :=
          match cs' with
          | "+"%char :: r => (false, r)
          | "-"%char :: r => (true, r)
          | _ => (false, cs')
          end in
        match DecimalDigits ds with
        | ((_ :: _) as n, []) => Some (if neg then - MV 10 n else MV 10 n)
        | _ => None
        end
      else None
  end.

(** What a [StrUnsignedDecimalLiteral] denotes: infinity, or
    [m * 10 ^ e] for a natural [m] and an integer [e]. *)
Inductive literal : Type :=
  | Infinity
  | Decimal (m e : Z).

Definition StrUnsignedDecimalLiteral (cs : list ascii) : option literal :=
  if String.eqb (string_of_list_ascii cs) "Infinity" then Some Infinity
  else
    let '(ip, r1) := DecimalDigits cs in
    let '(fp, r2) :=
      match r1 with
      | "."%char :: r => DecimalDigits r
      | _ => ([], r1)
      end in
    match ip, fp with
    | [], [] => None
    | _, _ =>
        match ExponentPart r2 with
        | Some e => Some (Decimal (MV 10 (ip ++ fp)) (e - Z.of_nat (List.length fp)))
        | None => None
        end
    end.

(** The binary64 value nearest to [n / d] (ties to even), [n] and [d]
    positive: the quotient is computed with 64 bits or more and a sticky
    bit, then rounded once by [binary_normalize]. *)
Definition round_ratio (neg : bool) (n d : Z) : float :=
  let k := Z.max 0 (Z.log2 d - Z.log2 n + 64) in
  let q := (n * 2 ^ k) / d in
  let sticky := if (n * 2 ^ k) mod d =? 0 then 0 else 1 in
  let m := 2 * q + sticky in
  SF2Prim (binary_normalize prec emax (if neg then - m else m) (- (k + 1)) neg).

(** [RoundMVResult] of [m * 10 ^ e], with the sign of the literal. *)
Definition RoundMVResult (neg : bool) (m e : Z) : float :=
  if m =? 0 then (if neg then PrimFloat.neg_zero else PrimFloat.zero)
  else if 0 <=? e then
    SF2Prim (binary_normalize prec emax
               (if neg then - (m * 10 ^ e) else m * 10 ^ e) 0 neg)
  else round_ratio neg m (10 ^ (- e)).

Definition trim (cs : list ascii) : list ascii :=
  let dropWS := fix go (l : list ascii) : list ascii :=
    match l with
    | c :: l' => if StrWhiteSpaceChar c then go l' else l
    | [] => []
    end in
  rev (dropWS (rev (dropWS cs))).

Definition StringToNumber (s : string) : float :=
  match trim (list_ascii_of_string s) with
  | [] => PrimFloat.zero
  | cs =>
      match NonDecimalIntegerLiteral cs with
      | Some n => RoundMVResult false n 0
      | None =>
          let '(neg, body) :=
            match cs with
            | "+"%char :: r => (false, r)
            | "-"%char :: r => (true, r)
            | _ => (false, cs)
            end in
          match StrUnsignedDecimalLiteral body with
          | Some Infinity => if neg then PrimFloat.neg_infinity else PrimFloat.infinity
          | Some (Decimal m e) => RoundMVResult neg m e
          | None => PrimFloat.nan
          end
      end
  end.

End StringToNumber.

Definition StringToNumber : string -> float := StringToNumber.StringToNumber.

Definition BooleanToNumber (b : bool) : float :=
  if b then 1%float else 0%float.

(** *** [IsStrictlyEqual] ([===]) and [IsLooselyEqual] ([==]) *)

Definition IsStrictlyEqual (x y : value) : bool :=
  match x, y with
  | VUndefined, VUndefined => true
  | VNull, VNull => true
  | VBoolean a, VBoolean b => Bool.eqb a b
  | VNumber a, VNumber b => PrimFloat.eqb a b
  | VString a, VString b => String.eqb a b
  | _, _ => false
  end.

Definition IsLooselyEqual (x y : value) : bool :=
  match x, y with
  | (VUndefined | VNull), (VUndefined | VNull) => true
  | VBoolean a, VBoolean b => Bool.eqb a b
  | VNumber a, VNumber b => PrimFloat.eqb a b
  | VString a, VString b => String.eqb a b
  | VNumber a, VString b => PrimFloat.eqb a (StringToNumber b)
  | VString a, VNumber b => PrimFloat.eqb (StringToNumber a) b
  | VBoolean a, VNumber b => PrimFloat.eqb (BooleanToNumber a) b
  | VNumber a, VBoolean b => PrimFloat.eqb a (BooleanToNumber b)
  | VBoolean a, VString b => PrimFloat.eqb (BooleanToNumber a) (StringToNumber b)
  | VString a, VBoolean b => PrimFloat.eqb (StringToNumber a) (BooleanToNumber b)
  | _, _ => false
  end.

(** *** [String.prototype.toLowerCase] on code units below 256 *)

Definition toLowerCaseChar (c : ascii) : ascii :=
  let n := Z.of_N (N_of_ascii c) in
  if ((65 <=? n) && (n <=? 90))
     || ((192 <=? n) && (n <=? 222) && negb (n =? 215))
  then ascii_of_N (N_of_ascii c + 32) else c.

Fixpoint toLowerCase (s : string) : string :=
  match s with
  | EmptyString => EmptyString
  | String c s' => String (toLowerCaseChar c) (toLowerCase s')
  end.

(** ** The store: [class TodoDatabase] *)

(** [static columns]. *)
Module columns.
Inductive t : Type :=
  | id
  | description
  | objectId
  | isCompleted
  | channelOrChatId.
End columns.

(** The row objects that [insert] builds. *)
Module row.
Record t : Type := Row {
  id : value;
  description : value;
  objectId : value;
  isCompleted : value;
  channelOrChatId : value;
}.

(** [item[column]]. *)
Definition get (item : t) (column : columns.t) : value :=
  match column with
  | columns.id => id item
  | columns.description => description item
  | columns.objectId => objectId item
  | columns.isCompleted => isCompleted item
  | columns.channelOrChatId => channelOrChatId item
  end.

(** [item[column] = value]. *)
Definition set (column : columns.t) (v : value) (item : t) : t :=
  match column with
  | columns.id =>
      Row v (description item) (objectId item) (isCompleted item) (channelOrChatId item)
  | columns.description =>
      Row (id item) v (objectId item) (isCompleted item) (channelOrChatId item)
  | columns.objectId =>
      Row (id item) (description item) v (isCompleted item) (channelOrChatId item)
  | columns.isCompleted =>
      Row (id item) (description item) (objectId item) v (channelOrChatId item)
  | columns.channelOrChatId =>
      Row (id item) (description item) (objectId item) (isCompleted item) v
  end.
End row.

(** References to row objects. *)
Abbreviation loc := positive.

(** The state the handler runs on: the row objects, and [this.data] of the
    one [TodoDatabase] instance, an array of references in insertion order. *)
Record store : Type := Store {
  heap : gmap loc row.t;
  data : list loc;
}.

(** [item[column]] through the reference [item]. Every reference of [data]
    is allocated (see [store_wf]); the default is never read. *)
Definition read (h : gmap loc row.t) (item : loc) (column : columns.t) : value :=
  match h !! item with
  | Some r => row.get r column
  | None => VUndefined
  end.

Module TodoDatabase.

Definition listBy (column : columns.t) (v : value) (db : store) : list loc :=
  fold_left
    (fun result item =>
       if IsStrictlyEqual (read (heap db) item column) v
       then result ++ [item] else result)
    (data db) [].

(** One iteration of the loop of [setColumn]: [if (item.id === id)
    item[column] = value], on the heap as the iterations before left it. *)
Definition setColumn_step (id : value) (column : columns.t) (v : value)
    (h : gmap loc row.t) (item : loc) : gmap loc row.t :=
  if IsStrictlyEqual (read h item columns.id) id
  then alter (row.set column v) item h else h.

Definition setColumn (id : value) (column : columns.t) (v : value)
    (db : store) : store :=
  {| heap := fold_left (setColumn_step id column v) (data db) (heap db);
     data := data db |}.

(** [uuid] is what the call [uuid.v4()] returns. *)
Definition insert (uuid : string)
    (description objectId isCompleted channelOrChatId : value)
    (db : store) : store :=
  let item := fresh (dom (heap db)) in
  {| heap :=
       <[item := row.Row (VString uuid) description objectId isCompleted
                   channelOrChatId]> (heap db);
     data := data db ++ [item] |}.

Definition deleteBy (column : columns.t) (id : value) (db : store) : store :=
  {| heap := heap db;
     data :=
       List.filter
         (fun item => negb (IsLooselyEqual (read (heap db) item column) id))
         (data db) |}.

End TodoDatabase.

(** [const database = new TodoDatabase()]. *)
Definition database : store := {| heap := ∅; data := [] |}.

(** ** The handler: [module.exports] *)

(** A JavaScript [Error], as far as the handler looks at it. *)
Record Error : Type := { message : string }.

Inductive outcome (A : Type) : Type :=
  | Return (a : A)
  | Throw (err : Error).
Arguments Return {A} a.
Arguments Throw {A} err.

(** Statements of the handler's [try] block: they run on the store and
    either return or throw; what was written before a throw stays written. *)
Definition M (A : Type) : Type := store -> outcome A * store.

Definition ret {A} (a : A) : M A := fun db => (Return a, db).
Definition throw {A} (err : Error) : M A := fun db => (Throw err, db).
Definition lift {A} (o : outcome A) : M A := fun db => (o, db).
Definition bind {A B} (m : M A) (k : A -> M B) : M B :=
  fun db =>
    match m db with
    | (Return a, db') => k a db'
    | (Throw err, db') => (Throw err, db')
    end.

Notation "'let*' x ':=' m 'in' k" := (bind m (fun x => k))
  (at level 10, x name, m at level 100, k at level 200).

(** The part of the request the handler reads. *)
Module HttpRequest.
(** [req.body]: absent ([undefined]), a primitive, or an object. *)
Inductive body_t : Type :=
  | Primitive (v : value)
  | Object (props : gmap string value).

Record t : Type := {
  method : string;
  query : gmap string string;
  body : body_t;
}.
End HttpRequest.

(** [if (req.body)]: an object is truthy. *)
Definition body_truthy (b : HttpRequest.body_t) : bool :=
  match b with
  | HttpRequest.Primitive v => ToBoolean v
  | HttpRequest.Object _ => true
  end.

(** Reading a property of [undefined] or [null] throws a TypeError; the
    result names which of the two the body was. *)
Definition nullish (b : HttpRequest.body_t) : option string :=
  match b with
  | HttpRequest.Primitive VUndefined => Some "undefined"
  | HttpRequest.Primitive VNull => Some "null"
  | _ => None
  end.

(** The value of [req.body.name] when the body is not nullish, for the names
    the handler reads ([id], [description], [isCompleted],
    [channelOrChatId]): undefined on a primitive (the prototypes of strings,
    numbers and booleans have no such property) and on an object without the
    property. *)
Definition get_prop (b : HttpRequest.body_t) (name : string) : value :=
  match b with
  | HttpRequest.Primitive _ => VUndefined
  | HttpRequest.Object props =>
      match props !! name with Some v => v | None => VUndefined end
  end.

(** [req.body.name]. *)
Definition prop (b : HttpRequest.body_t) (name : string) : M value :=
  match nullish b with
  | Some what =>
      throw {| message :=
        String.append "Cannot read properties of "
          (String.append what
             (String.append " (reading '" (String.append name "')"))) |}
  | None => ret (get_prop b name)
  end.

(** [req.query.channelOrChatId]. *)
Definition query_channelOrChatId (req : HttpRequest.t) : value :=
  match HttpRequest.query req !! "channelOrChatId" with
  | Some s => VString s
  | None => VUndefined
  end.

(** The [UserInfo] that [teamsfx.getUserInfo()] resolves to. *)
Record UserInfo : Type := {
  displayName : string;
  objectId : string;
  preferredUserName : string;
}.

(** What the handler gets from outside the file: the result of the awaited
    identity resolution (lines 30 to 33: the token, [new TeamsFx()],
    [getUserInfo()]), which resolves or throws, and the identifier that a
    call of [uuid.v4()] returns. *)
Record environment : Type := {
  getUserInfo : outcome UserInfo;
  uuid_v4 : string;
}.

(** The value of the variable [result]. *)
Inductive result : Type :=
  | ResultString (s : string)
  | ResultUndefined
  | ResultArray (items : list loc).

Module Response.
Inductive body_t : Type :=
  | Body (r : result)
  | ErrorBody (error : string).

Record t : Type := {
  status : Z;
  body : body_t;
}.
End Response.

(** The store methods as statements; they return what the JavaScript
    methods return. *)
Definition call_listBy (column : columns.t) (v : value) : M result :=
  fun db => (Return (ResultArray (TodoDatabase.listBy column v db)), db).

Definition call_setColumn (id : value) (column : columns.t) (v : value) : M result :=
  fun db => (Return ResultUndefined, TodoDatabase.setColumn id column v db).

Definition call_insert (uuid : string)
    (description objectId isCompleted channelOrChatId : value) : M result :=
  fun db =>
    (Return ResultUndefined,
     TodoDatabase.insert uuid description objectId isCompleted channelOrChatId db).

Definition call_deleteBy (column : columns.t) (id : value) : M result :=
  fun db => (Return ResultUndefined, TodoDatabase.deleteBy column id db).

(** [c ? 1 : 0]. *)
Definition one_or_zero (c : value) : value :=
  if ToBoolean c then VNumber 1%float else VNumber 0%float.

(** The [try] block. *)
Definition try_block (env : environment) (req : HttpRequest.t) : M result :=
  let method := toLowerCase (HttpRequest.method req) in
  let* currentUser := lift (getUserInfo env) in
  let objectId := VString (objectId currentUser) in
  let body := HttpRequest.body req in
  if String.eqb method "get" then
    call_listBy columns.channelOrChatId (query_channelOrChatId req)
  else if String.eqb method "put" then
    let* description := prop body "description" in
    if ToBoolean description then
      let* id := prop body "id" in
      let* description := prop body "description" in
      call_setColumn id columns.description description
    else
      let* id := prop body "id" in
      let* isCompleted := prop body "isCompleted" in
      call_setColumn id columns.isCompleted (one_or_zero isCompleted)
  else if String.eqb method "post" then
    let* description := prop body "description" in
    let* isCompleted := prop body "isCompleted" in
    let* channelOrChatId := prop body "channelOrChatId" in
    call_insert (uuid_v4 env) description objectId (one_or_zero isCompleted)
      channelOrChatId
  else if String.eqb method "delete" then
    if body_truthy body then
      let* id := prop body "id" in
      call_deleteBy columns.id id
    else
      call_deleteBy columns.objectId objectId
  else
    ret (ResultString "").

(** [module.exports]: the response, and the store the request leaves. *)
Definition module_exports (env : environment) (req : HttpRequest.t)
    (db : store) : Response.t * store :=
  match try_block env req db with
  | (Return r, db') =>
      ({| Response.status := 200; Response.body := Response.Body r |}, db')
  | (Throw err, db') =>
      ({| Response.status := 500;
          Response.body := Response.ErrorBody (message err) |}, db')
  end.

(** The store after a sequence of requests. The handler awaits only the
    identity resolution, before it touches the store, so the store method of a
    request runs without interleaving: [steps] lists the requests in the order
    in which they reach the store. *)
Definition serve (db : store) (step : environment * HttpRequest.t) : store :=
  snd (module_exports (fst step) (snd step) db).

Definition run (steps : list (environment * HttpRequest.t)) (db : store) : store :=
  fold_left serve steps db.

(** Every reference of [data] points to a row, and no reference is held
    twice. *)
Definition store_wf (db : store) : Prop :=
  NoDup (data db) /\ forall item, In item (data db) -> is_Some (heap db !! item).




(** The [id]s of the rows of the store, in the order of [data]. *)
Definition ids (db : store) : list value :=
  map (fun item => read (heap db) item columns.id) (data db).

(** Equality of method names up to the case of the letters A to Z, stated
    without [toLowerCase]. *)
Definition same_letter (c d : ascii) : bool :=
  let m := Z.of_N (N_of_ascii c) in
  let n := Z.of_N (N_of_ascii d) in
  (m =? n)
  || ((65 <=? m) && (m <=? 90) && (n =? m + 32))
  || ((65 <=? n) && (n <=? 90) && (m =? n + 32)).

Fixpoint same_ignoring_case (s t : string) : bool :=
  match s, t with
  | EmptyString, EmptyString => true
  | String c s', String d t' => same_letter c d && same_ignoring_case s' t'
  | _, _ => false
  end.

(** The request's method is none of GET, PUT, POST and DELETE, in any case. *)
Definition other_method (req : HttpRequest.t) : Prop :=
  Forall (fun m => same_ignoring_case (HttpRequest.method req) m = false)
    ["GET"; "PUT"; "POST"; "DELETE"].

(** What one request can do to the store: nothing, or one call of a method of
    the store with the arguments the handler passes. *)
Inductive effect (env : environment) (db : store) : store -> Prop :=
  | effect_none : effect env db db
  | effect_setColumn (id : value) (column : columns.t) (v : value) :
      column = columns.description \/ column = columns.isCompleted ->
      effect env db (TodoDatabase.setColumn id column v db)
  | effect_insert (user : UserInfo) (description isCompleted channelOrChatId : value) :
      getUserInfo env = Return user ->
      effect env db
        (TodoDatabase.insert (uuid_v4 env) description (VString (objectId user))
           isCompleted channelOrChatId db)
  | effect_deleteBy (column : columns.t) (id : value) :
      effect env db (TodoDatabase.deleteBy column id db).

(** Every row object holds a string in [objectId]. *)
Definition owners_are_strings (db : store) : Prop :=
  forall item r, heap db !! item = Some r -> exists s, row.objectId r = VString s.

(** Every row object holds a string in [id]. *)
Definition ids_are_strings (db : store) : Prop :=
  forall item r, heap db !! item = Some r -> exists s, row.id r = VString s.

(** The 256 code units a [string] is made of. *)
Definition all_ascii : list ascii := map ascii_of_nat (seq 0 256).

Definition is_upper (c : ascii) : bool :=
  let n := Z.of_N (N_of_ascii c) in (65 <=? n) && (n <=? 90).

Fixpoint all_upper (s : string) : bool :=
  match s with
  | EmptyString => true
  | String c s' => is_upper c && all_upper s'
  end.

(** ** A scenario

    User U1 posts "buy milk" to chat1 (with an [objectId] of somebody else in
    the body), user U2 posts "call bob"; then requests on that store. *)

Definition U1 : UserInfo :=
  {| displayName := "User One"; objectId := "U1"; preferredUserName := "u1" |}.

Definition U2 : UserInfo :=
  {| displayName := "User Two"; objectId := "U2"; preferredUserName := "u2" |}.

(** The identity resolves to [user] and [uuid.v4()] returns [uuid]. *)
Definition resolved (user : UserInfo) (uuid : string) : environment :=
  {| getUserInfo := Return user; uuid_v4 := uuid |}.

Definition request (method : string) (body : HttpRequest.body_t) : HttpRequest.t :=
  {| HttpRequest.method := method; HttpRequest.query := ∅;
     HttpRequest.body := body |}.

Definition no_body : HttpRequest.body_t := HttpRequest.Primitive VUndefined.

Definition post_milk : HttpRequest.t :=
  request "POST"
    (HttpRequest.Object
       (list_to_map
          [("description", VString "buy milk"); ("isCompleted", VBoolean false);
           ("channelOrChatId", VString "chat1"); ("objectId", VString "U2")])).

Definition post_bob : HttpRequest.t :=
  request "post"
    (HttpRequest.Object
       (list_to_map
          [("description", VString "call bob"); ("isCompleted", VBoolean true);
           ("channelOrChatId", VString "chat1")])).

(** A PUT that names both fields. *)
Definition put_both : HttpRequest.t :=
  request "PUT"
    (HttpRequest.Object
       (list_to_map
          [("id", VString "id-1"); ("description", VString "buy oat milk");
           ("isCompleted", VBoolean true)])).

Definition put_unknown : HttpRequest.t :=
  request "Put"
    (HttpRequest.Object
       (list_to_map [("id", VString "id-9"); ("isCompleted", VBoolean true)])).

Definition delete_own : HttpRequest.t := request "DELETE" no_body.

Definition delete_id (id : string) : HttpRequest.t :=
  request "DELETE" (HttpRequest.Object (list_to_map [("id", VString id)])).

Definition get_chat (chat : string) : HttpRequest.t :=
  {| HttpRequest.method := "GET";
     HttpRequest.query := {["channelOrChatId" := chat]};
     HttpRequest.body := no_body |}.

(** The identity resolution throws. *)
Definition unresolved (msg uuid : string) : environment :=
  {| getUserInfo := Throw {| message := msg |}; uuid_v4 := uuid |}.

Definition patch : HttpRequest.t := request "PATCH" no_body.

Definition two_posts : list (environment * HttpRequest.t) :=
  [(resolved U1 "id-1", post_milk); (resolved U2 "id-2", post_bob)].

Definition milk : row.t :=
  row.Row (VString "id-1") (VString "buy milk") (VString "U1")
    (VNumber 0%float) (VString "chat1").

Definition bob : row.t :=
  row.Row (VString "id-2") (VString "call bob") (VString "U2")
    (VNumber 1%float) (VString "chat1").

(** ** The calls of the handler

    The [switch] of the handler as a relation: what a request whose caller
    was resolved calls on the store, with the arguments it passes. A request
    that throws, or whose method is not handled, calls nothing. *)
Inductive handler_call (env : environment) (req : HttpRequest.t) (db : store) :
    store -> Prop :=
  | call_nothing : handler_call env req db db
  | call_set_description :
      toLowerCase (HttpRequest.method req) = "put" ->
      ToBoolean (get_prop (HttpRequest.body req) "description") = true ->
      handler_call env req db
        (TodoDatabase.setColumn (get_prop (HttpRequest.body req) "id")
           columns.description
           (get_prop (HttpRequest.body req) "description") db)
  | call_set_isCompleted :
      toLowerCase (HttpRequest.method req) = "put" ->
      ToBoolean (get_prop (HttpRequest.body req) "description") = false ->
      handler_call env req db
        (TodoDatabase.setColumn (get_prop (HttpRequest.body req) "id")
           columns.isCompleted
           (one_or_zero (get_prop (HttpRequest.body req) "isCompleted")) db)
  | call_insert_row (user : UserInfo) :
      getUserInfo env = Return user ->
      toLowerCase (HttpRequest.method req) = "post" ->
      handler_call env req db
        (TodoDatabase.insert (uuid_v4 env)
           (get_prop (HttpRequest.body req) "description")
           (VString (objectId user))
           (one_or_zero (get_prop (HttpRequest.body req) "isCompleted"))
           (get_prop (HttpRequest.body req) "channelOrChatId") db)
  | call_delete_id :
      toLowerCase (HttpRequest.method req) = "delete" ->
      body_truthy (HttpRequest.body req) = true ->
      handler_call env req db
        (TodoDatabase.deleteBy columns.id
           (get_prop (HttpRequest.body req) "id") db)
  | call_delete_own (user : UserInfo) :
      getUserInfo env = Return user ->
      toLowerCase (HttpRequest.method req) = "delete" ->
      body_truthy (HttpRequest.body req) = false ->
      handler_call env req db
        (TodoDatabase.deleteBy columns.objectId (VString (objectId user)) db).

(** Every row object holds the number 0 or the number 1 in [isCompleted]. *)
Definition completion_is_a_bit (db : store) : Prop :=
  forall item r,
    heap db !! item = Some r ->
    row.isCompleted r = VNumber 0%float \/ row.isCompleted r = VNumber 1%float.

(** A request of [user] for which [uuid.v4()] returns [uuid], when it is
    served: the same request with another caller, or served again. *)
Definition same_user (env env' : environment) : Prop :=
  exists user, getUserInfo env = Return user /\ getUserInfo env' = Return user.

(** A POST without [channelOrChatId], and a GET without the query
    parameter. *)
Definition post_nowhere : HttpRequest.t :=
  request "POST"
    (HttpRequest.Object (list_to_map [("description", VString "lost")])).

Definition get_nowhere : HttpRequest.t := request "GET" no_body.

(** A PUT with the empty description and no [isCompleted]. *)
Definition put_empty_description : HttpRequest.t :=
  request "PUT"
    (HttpRequest.Object
       (list_to_map [("id", VString "id-1"); ("description", VString "")])).


(** * Properties *)

(** ** The ECMAScript operations on examples *)

Example StringToNumber_numbers :
  PrimFloat.eqb (StringToNumber "1") 1%float = true
  /\ PrimFloat.eqb (StringToNumber "") 0%float = true
  /\ PrimFloat.eqb (StringToNumber "  12 ") 12%float = true
  /\ PrimFloat.eqb (StringToNumber "-1.5E+2") (-150)%float = true
  /\ PrimFloat.eqb (StringToNumber ".5") 0.5%float = true
  /\ PrimFloat.eqb (StringToNumber "5.") 5%float = true
  /\ PrimFloat.eqb (StringToNumber "0x1F") 31%float = true
  /\ PrimFloat.eqb (StringToNumber "0b101") 5%float = true
  /\ PrimFloat.eqb (StringToNumber "9007199254740993") 9007199254740992%float = true
  /\ PrimFloat.eqb (StringToNumber "1e400") PrimFloat.infinity = true
  /\ PrimFloat.eqb (StringToNumber "-Infinity") PrimFloat.neg_infinity = true.
Proof. vm_compute. repeat split. Qed.

Example StringToNumber_NaN :
  Forall (fun s => PrimFloat.eqb (StringToNumber s) (StringToNumber s) = false)
    ["abc"; "1 2"; "-0x10"; "infinity"; "1_0"; "."; "+"; "1e"; "0x"; "1.5.5";
     "3f2504e0-4f89-41d3-9a0c-0305e82c3301"].
Proof. repeat constructor. Qed.

Example ToBoolean_examples :
  ToBoolean (VString "") = false /\ ToBoolean (VString "0") = true
  /\ ToBoolean (VNumber 0%float) = false /\ ToBoolean (VNumber PrimFloat.nan) = false
  /\ ToBoolean (VNumber (-1)%float) = true /\ ToBoolean VNull = false.
Proof. vm_compute. repeat split. Qed.

Example IsLooselyEqual_examples :
  IsLooselyEqual VNull VUndefined = true
  /\ IsLooselyEqual (VString "1") (VNumber 1%float) = true
  /\ IsLooselyEqual (VBoolean true) (VString "1") = true
  /\ IsLooselyEqual (VString "") (VNumber 0%float) = true
  /\ IsLooselyEqual VNull (VNumber 0%float) = false
  /\ IsLooselyEqual (VString "a") (VString "A") = false
  /\ IsLooselyEqual (VNumber PrimFloat.nan) (VNumber PrimFloat.nan) = false.
Proof. vm_compute. repeat split. Qed.

Example toLowerCase_examples :
  toLowerCase "GET" = "get" /\ toLowerCase "Delete" = "delete"
  /\ toLowerCase "post" = "post" /\ toLowerCase "P-1_t" = "p-1_t".
Proof. repeat split. Qed.

(** ** Equality *)

Lemma IsStrictlyEqual_loose (x y : value) :
  IsStrictlyEqual x y = true -> IsLooselyEqual x y = true.
Proof. destruct x, y; simpl; congruence. Qed.

Lemma IsStrictlyEqual_string (v : value) (s : string) :
  IsStrictlyEqual v (VString s) = true <-> v = VString s.
Proof.
  destruct v; simpl; try (split; [discriminate | congruence]).
  rewrite String.eqb_eq. split; congruence.
Qed.

Lemma IsStrictlyEqual_undefined (v : value) :
  IsStrictlyEqual v VUndefined = true <-> v = VUndefined.
Proof. destruct v; simpl; split; congruence. Qed.

(** ** The store *)

Section Store.

Implicit Types (db : store) (h : gmap loc row.t) (item : loc)
  (column : columns.t) (v : value).

(** The loop of [listBy] with the array built so far. *)
Lemma listBy_loop (keep : loc -> bool) (items acc : list loc) :
  fold_left (fun result item => if keep item then result ++ [item] else result)
    items acc
  = acc ++ List.filter keep items.
Proof.
  revert acc. induction items as [|item items IH]; intros acc; simpl.
  - now rewrite app_nil_r.
  - rewrite IH. destruct (keep item); simpl; [|reflexivity].
    now rewrite <- app_assoc.
Qed.

Lemma listBy_filter column v db :
  TodoDatabase.listBy column v db
  = List.filter (fun item => IsStrictlyEqual (read (heap db) item column) v)
      (data db).
Proof. unfold TodoDatabase.listBy. now rewrite listBy_loop. Qed.

Lemma filter_sublist {A} (p : A -> bool) (l : list A) :
  sublist (List.filter p l) l.
Proof.
  induction l as [|a l IH]; simpl; [constructor|].
  destruct (p a); now constructor.
Qed.

Lemma filter_all {A} (p : A -> bool) (l : list A) :
  (forall a, In a l -> p a = true) -> List.filter p l = l.
Proof.
  induction l as [|a l IH]; simpl; intros Hall; [reflexivity|].
  rewrite (Hall a) by now left. f_equal. apply IH. intros b Hb.
  apply Hall. now right.
Qed.

Lemma deleteBy_no_match column v db :
  (forall item, In item (data db) ->
     IsLooselyEqual (read (heap db) item column) v = false) ->
  TodoDatabase.deleteBy column v db = db.
Proof.
  intros Hnone. destruct db as [h items]. unfold TodoDatabase.deleteBy.
  simpl in *. f_equal. apply filter_all. intros item Hin.
  now rewrite Hnone.
Qed.

End Store.

(** C8. [listBy(column, value)] returns exactly the rows of [data] whose
    [column] is strictly equal ([===]) to [value]: the same references, in the
    order of [data] (the insertion order, [insert] appending to [data]), each as
    often as [data] holds it. An empty value has no special meaning: with the
    empty string, or with [undefined], only the rows whose field is that very
    value are returned. *)
Theorem listBy_exactly_the_equal_rows (column : columns.t) (v : value) (db : store) :
  TodoDatabase.listBy column v db
  = List.filter (fun item => IsStrictlyEqual (read (heap db) item column) v) (data db)
  /\ (forall item,
        In item (TodoDatabase.listBy column v db)
        <-> In item (data db) /\ IsStrictlyEqual (read (heap db) item column) v = true)
  /\ sublist (TodoDatabase.listBy column v db) (data db)
  /\ (forall item,
        In item (TodoDatabase.listBy column (VString "") db)
        <-> In item (data db) /\ read (heap db) item column = VString "")
  /\ (forall item,
        In item (TodoDatabase.listBy column VUndefined db)
        <-> In item (data db) /\ read (heap db) item column = VUndefined).
Proof.
  rewrite !listBy_filter. split; [reflexivity|]. split; [|split; [|split]].
  - intros item. apply filter_In.
  - apply filter_sublist.
  - intros item. rewrite filter_In. now rewrite IsStrictlyEqual_string.
  - intros item. rewrite filter_In. now rewrite IsStrictlyEqual_undefined.
Qed.

(** C4. [deleteBy(column, value)] replaces [data] with exactly the rows whose
    [column] is not equal ([!=], the loose comparison the method uses) to
    [value]: every matching row goes, the others stay in their order, no row
    object is touched; when no row matches, the store is left as it was. *)
Theorem deleteBy_removes_all_matches (column : columns.t) (v : value) (db : store) :
  heap (TodoDatabase.deleteBy column v db) = heap db
  /\ data (TodoDatabase.deleteBy column v db)
     = List.filter
         (fun item => negb (IsLooselyEqual (read (heap db) item column) v))
         (data db)
  /\ (forall item,
        In item (data (TodoDatabase.deleteBy column v db))
        <-> In item (data db)
            /\ IsLooselyEqual (read (heap db) item column) v = false)
  /\ sublist (data (TodoDatabase.deleteBy column v db)) (data db)
  /\ ((forall item,
         In item (data db) ->
         IsLooselyEqual (read (heap db) item column) v = false) ->
      TodoDatabase.deleteBy column v db = db).
Proof.
  split; [reflexivity|]. split; [reflexivity|]. split; [|split].
  - intros item. simpl. rewrite filter_In, negb_true_iff. reflexivity.
  - apply filter_sublist.
  - apply deleteBy_no_match.
Qed.

(** ** [setColumn] *)

Section SetColumn.

Variables (id : value) (column : columns.t) (v : value).

Local Abbreviation step := (TodoDatabase.setColumn_step id column v).

(** What [row.set column v] leaves alone, the loop leaves alone. *)
Lemma setColumn_loop_keeps {B} (g : row.t -> B) :
  (forall r, g (row.set column v r) = g r) ->
  forall (items : list loc) (h : gmap loc row.t) (item : loc),
    g <$> (fold_left step items h !! item) = g <$> (h !! item).
Proof.
  intros Hg items. induction items as [|a items IH]; intros h item; simpl.
  - reflexivity.
  - rewrite IH. unfold TodoDatabase.setColumn_step.
    destruct (IsStrictlyEqual (read h a columns.id) id); [|reflexivity].
    rewrite lookup_alter. case_decide as Heq; [|reflexivity].
    subst a. destruct (h !! item) as [r|]; simpl; [|reflexivity].
    now rewrite Hg.
Qed.

Lemma setColumn_loop_none (items : list loc) (h : gmap loc row.t) :
  (forall item, In item items -> IsStrictlyEqual (read h item columns.id) id = false) ->
  fold_left step items h = h.
Proof.
  induction items as [|a items IH]; intros Hnone; simpl; [reflexivity|].
  unfold TodoDatabase.setColumn_step at 2. rewrite (Hnone a) by now left.
  apply IH. intros item Hin. apply Hnone. now right.
Qed.

Lemma row_set_twice (r : row.t) :
  row.set column v (row.set column v r) = row.set column v r.
Proof. destruct column, r; reflexivity. Qed.

Lemma row_get_set_other (c : columns.t) (r : row.t) :
  c <> column -> row.get (row.set column v r) c = row.get r c.
Proof. destruct column, c, r; simpl; congruence. Qed.

Lemma row_get_set (r : row.t) : row.get (row.set column v r) column = v.
Proof. destruct column, r; reflexivity. Qed.

Lemma read_lookup (h h' : gmap loc row.t) (item : loc) (c : columns.t) :
  (fun r => row.get r c) <$> (h' !! item) = (fun r => row.get r c) <$> (h !! item) ->
  read h' item c = read h item c.
Proof.
  unfold read. destruct (h' !! item), (h !! item); simpl; congruence.
Qed.

(** The loop writes [column] only. *)
Lemma setColumn_loop_read_other (c : columns.t) (items : list loc)
    (h : gmap loc row.t) (item : loc) :
  c <> column ->
  read (fold_left step items h) item c = read h item c.
Proof.
  intros Hc. apply read_lookup.
  apply (setColumn_loop_keeps (fun r => row.get r c)).
  intros r. now apply row_get_set_other.
Qed.

Hypothesis column_not_id : column <> columns.id.

Lemma setColumn_step_id (h : gmap loc row.t) (a item : loc) :
  read (step h a) item columns.id = read h item columns.id.
Proof.
  apply (setColumn_loop_read_other columns.id [a] h item). congruence.
Qed.

(** A row that is not in [data], or whose [id] differs, is left as it was. *)
Lemma setColumn_loop_miss (items : list loc) (h : gmap loc row.t) (item : loc) :
  ~ In item items \/ IsStrictlyEqual (read h item columns.id) id = false ->
  fold_left step items h !! item = h !! item.
Proof.
  revert h. induction items as [|a items IH]; intros h Hmiss; simpl.
  - reflexivity.
  - rewrite IH.
    + unfold TodoDatabase.setColumn_step.
      destruct (IsStrictlyEqual (read h a columns.id) id) eqn:Ha; [|reflexivity].
      rewrite lookup_alter_ne; [reflexivity|].
      intros ->. destruct Hmiss as [Hnot | Hne]; [|congruence].
      apply Hnot. now left.
    + rewrite setColumn_step_id. destruct Hmiss as [Hnot | Hne]; [left|now right].
      intros Hin. apply Hnot. now right.
Qed.

(** A row of [data] whose [id] is strictly equal to [id] gets [v] in
    [column], and nothing else. *)
Lemma setColumn_loop_hit (items : list loc) (h : gmap loc row.t) (item : loc) :
  In item items ->
  IsStrictlyEqual (read h item columns.id) id = true ->
  fold_left step items h !! item = row.set column v <$> (h !! item).
Proof.
  revert h. induction items as [|a items IH]; intros h Hin Hhit; simpl.
  - destruct Hin.
  - destruct (decide (a = item)) as [-> | Hne].
    + assert (Hstep : step h item !! item = row.set column v <$> (h !! item)).
      { unfold TodoDatabase.setColumn_step. rewrite Hhit. now rewrite lookup_alter_eq. }
      destruct (in_dec Pos.eq_dec item items) as [Hin' | Hnot].
      * rewrite IH; [|assumption|now rewrite setColumn_step_id].
        rewrite Hstep. destruct (h !! item) as [r|]; simpl; [|reflexivity].
        now rewrite row_set_twice.
      * rewrite setColumn_loop_miss by now left. exact Hstep.
    + destruct Hin as [Heq | Hin]; [congruence|].
      rewrite IH; [|assumption|now rewrite setColumn_step_id].
      f_equal. unfold TodoDatabase.setColumn_step.
      destruct (IsStrictlyEqual (read h a columns.id) id); [|reflexivity].
      now rewrite lookup_alter_ne.
Qed.

End SetColumn.

(** ** The handler, method by method *)

Section Handler.

Variables (env : environment) (req : HttpRequest.t) (user : UserInfo).
Hypothesis resolved : getUserInfo env = Return user.

Local Abbreviation body := (HttpRequest.body req).
Local Abbreviation method := (toLowerCase (HttpRequest.method req)).

Lemma prop_present (name : string) (db : store) :
  nullish body = None -> prop body name db = (Return (get_prop body name), db).
Proof. unfold prop. now intros ->. Qed.

Lemma try_block_get (db : store) :
  method = "get" ->
  try_block env req db
  = (Return (ResultArray
       (TodoDatabase.listBy columns.channelOrChatId (query_channelOrChatId req) db)),
     db).
Proof.
  intros Hm. unfold try_block, bind, lift. rewrite resolved, Hm. reflexivity.
Qed.

Lemma try_block_put (db : store) :
  method = "put" ->
  nullish body = None ->
  try_block env req db
  = (Return ResultUndefined,
     if ToBoolean (get_prop body "description")
     then TodoDatabase.setColumn (get_prop body "id") columns.description
            (get_prop body "description") db
     else TodoDatabase.setColumn (get_prop body "id") columns.isCompleted
            (one_or_zero (get_prop body "isCompleted")) db).
Proof.
  intros Hm Hb. unfold try_block, bind, lift. rewrite resolved, Hm. simpl.
  rewrite prop_present by assumption.
  destruct (ToBoolean (get_prop body "description"));
    now rewrite !prop_present by assumption.
Qed.

Lemma try_block_post (db : store) :
  method = "post" ->
  nullish body = None ->
  try_block env req db
  = (Return ResultUndefined,
     TodoDatabase.insert (uuid_v4 env) (get_prop body "description")
       (VString (objectId user)) (one_or_zero (get_prop body "isCompleted"))
       (get_prop body "channelOrChatId") db).
Proof.
  intros Hm Hb. unfold try_block, bind, lift. rewrite resolved, Hm. simpl.
  now rewrite !prop_present by assumption.
Qed.

Lemma try_block_delete_by_id (db : store) :
  method = "delete" ->
  body_truthy body = true ->
  try_block env req db
  = (Return ResultUndefined,
     TodoDatabase.deleteBy columns.id (get_prop body "id") db).
Proof.
  intros Hm Hb. unfold try_block, bind, lift. rewrite resolved, Hm, Hb. simpl.
  rewrite prop_present; [reflexivity|].
  destruct (HttpRequest.body req) as [[]|]; simpl in *; congruence.
Qed.

Lemma try_block_delete_own (db : store) :
  method = "delete" ->
  body_truthy body = false ->
  try_block env req db
  = (Return ResultUndefined,
     TodoDatabase.deleteBy columns.objectId (VString (objectId user)) db).
Proof.
  intros Hm Hb. unfold try_block, bind, lift. rewrite resolved, Hm, Hb. reflexivity.
Qed.

(** A throw of [req.body.name] happens before any method of the store is
    called. *)
Lemma try_block_nullish (db : store) (what : string) :
  method = "put" \/ method = "post" ->
  nullish body = Some what ->
  exists err, try_block env req db = (Throw err, db).
Proof.
  intros Hm Hb. unfold try_block, bind, lift. rewrite resolved.
  destruct Hm as [-> | ->]; simpl; unfold prop; rewrite Hb; simpl; eauto.
Qed.

Lemma try_block_other (db : store) :
  String.eqb method "get" = false ->
  String.eqb method "put" = false ->
  String.eqb method "post" = false ->
  String.eqb method "delete" = false ->
  try_block env req db = (Return (ResultString ""), db).
Proof.
  intros H1 H2 H3 H4. unfold try_block, bind, lift.
  rewrite resolved, H1, H2, H3, H4. reflexivity.
Qed.

End Handler.

(** ** Method names *)

Lemma all_ascii_complete (c : ascii) : In c all_ascii.
Proof.
  unfold all_ascii. rewrite <- (ascii_nat_embedding c).
  apply in_map, in_seq. pose proof (nat_ascii_bounded c). lia.
Qed.

Lemma toLowerCaseChar_table :
  forallb (fun c =>
    forallb (fun d =>
      implb (is_upper d)
        (Bool.eqb (Ascii.eqb (toLowerCaseChar c) (toLowerCaseChar d))
           (same_letter c d)))
      all_ascii)
    all_ascii = true.
Proof. vm_compute. reflexivity. Qed.

Lemma toLowerCaseChar_same_letter (c d : ascii) :
  is_upper d = true ->
  Ascii.eqb (toLowerCaseChar c) (toLowerCaseChar d) = same_letter c d.
Proof.
  intros Hd. pose proof toLowerCaseChar_table as Htable.
  rewrite forallb_forall in Htable.
  specialize (Htable c (all_ascii_complete c)).
  rewrite forallb_forall in Htable.
  specialize (Htable d (all_ascii_complete d)).
  rewrite Hd in Htable. simpl in Htable. now apply eqb_prop in Htable.
Qed.

Lemma toLowerCase_same_ignoring_case (s t : string) :
  all_upper t = true ->
  String.eqb (toLowerCase s) (toLowerCase t) = same_ignoring_case s t.
Proof.
  revert t. induction s as [|c s IH]; intros [|d t] Ht; simpl in *;
    try reflexivity.
  apply andb_true_iff in Ht as [Hd Ht].
  now rewrite IH, toLowerCaseChar_same_letter.
Qed.

Lemma other_method_dispatch (req : HttpRequest.t) :
  other_method req ->
  let method := toLowerCase (HttpRequest.method req) in
  String.eqb method "get" = false /\ String.eqb method "put" = false
  /\ String.eqb method "post" = false /\ String.eqb method "delete" = false.
Proof.
  unfold other_method. rewrite !Forall_cons. intros (Hg & Hp & Ho & Hd & _).
  cbv zeta.
  change "get" with (toLowerCase "GET"). change "put" with (toLowerCase "PUT").
  change "post" with (toLowerCase "POST").
  change "delete" with (toLowerCase "DELETE").
  now rewrite !toLowerCase_same_ignoring_case by reflexivity.
Qed.

(** C9. A request whose method is none of GET, PUT, POST and DELETE, in any
    case of the letters, and whose caller's identity was resolved, calls no
    method of the store: the store is the one before the request, the status is
    200 and the result is the empty string [result] was initialised with. *)
Theorem other_method_is_a_no_op (env : environment) (req : HttpRequest.t)
    (user : UserInfo) (db : store) :
  getUserInfo env = Return user ->
  other_method req ->
  module_exports env req db
  = ({| Response.status := 200;
        Response.body := Response.Body (ResultString "") |}, db).
Proof.
  intros Hres Hother.
  destruct (other_method_dispatch req Hother) as (Hg & Hp & Ho & Hd).
  unfold module_exports.
  now rewrite (try_block_other env req user Hres db Hg Hp Ho Hd).
Qed.

(** ** What a request does to the store *)

Lemma module_exports_effect (env : environment) (req : HttpRequest.t) (db : store) :
  effect env db (snd (module_exports env req db)).
Proof.
  unfold module_exports, try_block, bind, lift.
  destruct (getUserInfo env) as [user|err] eqn:Hres; simpl; [|constructor].
  destruct (String.eqb _ "get"); simpl; [constructor|].
  destruct (String.eqb _ "put"); simpl.
  { unfold prop. destruct (nullish _); simpl; [constructor|].
    destruct (ToBoolean _); simpl; constructor; auto. }
  destruct (String.eqb _ "post"); simpl.
  { unfold prop. destruct (nullish _); simpl; [constructor|].
    now apply effect_insert with (user := user). }
  destruct (String.eqb _ "delete"); simpl; [|constructor].
  destruct (body_truthy _); simpl; [|constructor].
  unfold prop. destruct (nullish _); simpl; constructor.
Qed.

Lemma fresh_unallocated (h : gmap loc row.t) : h !! fresh (dom h) = None.
Proof. apply not_elem_of_dom, is_fresh. Qed.

(** A request leaves the [id] and the [objectId] of every row object as
    they were, and what it allocates has the identifier of [uuid.v4()] and is
    owned by the caller. *)
Lemma effect_rows (env : environment) (db db' : store) :
  effect env db db' ->
  forall item r', heap db' !! item = Some r' ->
    match heap db !! item with
    | Some r => row.id r' = row.id r /\ row.objectId r' = row.objectId r
    | None =>
        exists user, getUserInfo env = Return user
                     /\ row.id r' = VString (uuid_v4 env)
                     /\ row.objectId r' = VString (objectId user)
    end.
Proof.
  intros [ | id column v Hcol | user d c ch Hres | column id ] item r' Hr'.
  - now rewrite Hr'.
  - simpl in Hr'.
    pose proof (setColumn_loop_keeps id column v
                  (fun r => (row.id r, row.objectId r))) as Hkeep.
    specialize (Hkeep ltac:(intros r; destruct Hcol as [-> | ->], r; reflexivity)
                  (data db) (heap db) item).
    rewrite Hr' in Hkeep. destruct (heap db !! item); simpl in Hkeep;
      [split|]; congruence.
  - simpl in Hr'. destruct (decide (fresh (dom (heap db)) = item)) as [<- | Hne].
    + rewrite lookup_insert_eq in Hr'. rewrite fresh_unallocated.
      exists user. split; [assumption|]. now inversion Hr'.
    + rewrite lookup_insert_ne in Hr' by assumption. now rewrite Hr'.
  - simpl in Hr'. now rewrite Hr'.
Qed.

Lemma effect_objectId (env : environment) (db db' : store) :
  effect env db db' ->
  forall item r', heap db' !! item = Some r' ->
    match heap db !! item with
    | Some r => row.objectId r' = row.objectId r
    | None =>
        exists user, getUserInfo env = Return user
                     /\ row.objectId r' = VString (objectId user)
    end.
Proof.
  intros Heff item r' Hr'. pose proof (effect_rows env db db' Heff item r' Hr') as Hrows.
  destruct (heap db !! item); [tauto|].
  destruct Hrows as (user & Hres & _ & Hobj). eauto.
Qed.

(** No request frees a row object. *)
Lemma effect_allocated (env : environment) (db db' : store) :
  effect env db db' ->
  forall item, is_Some (heap db !! item) -> is_Some (heap db' !! item).
Proof.
  intros [ | id column v Hcol | user d c ch Hres | column id ] item Hitem;
    simpl; try assumption.
  - pose proof (setColumn_loop_keeps id column v (fun _ => tt)
                  ltac:(reflexivity) (data db) (heap db) item) as Hkeep.
    destruct Hitem as [r Hr]. rewrite Hr in Hkeep.
    destruct (fold_left _ _ _ !! item); [eauto | discriminate].
  - destruct (decide (fresh (dom (heap db)) = item)) as [<- | Hne].
    + rewrite lookup_insert_eq. eauto.
    + now rewrite lookup_insert_ne.
Qed.

Lemma serve_effect (db : store) (step : environment * HttpRequest.t) :
  effect (fst step) db (serve db step).
Proof. apply module_exports_effect. Qed.

Lemma effect_owners (env : environment) (db db' : store) :
  effect env db db' -> owners_are_strings db -> owners_are_strings db'.
Proof.
  intros Heff Hown item r' Hr'.
  pose proof (effect_objectId env db db' Heff item r' Hr') as Hobj.
  destruct (heap db !! item) as [r|] eqn:Hr.
  - rewrite Hobj. eauto.
  - destruct Hobj as (user & _ & ->). eauto.
Qed.

Lemma run_owners (steps : list (environment * HttpRequest.t)) (db : store) :
  owners_are_strings db -> owners_are_strings (run steps db).
Proof.
  revert db. induction steps as [|step steps IH]; intros db Hown; simpl.
  - assumption.
  - apply IH. eapply effect_owners; [apply serve_effect | assumption].
Qed.

Lemma database_owners : owners_are_strings database.
Proof. intros item r Hr. simpl in Hr. now rewrite lookup_empty in Hr. Qed.

Lemma run_ids_are_strings (steps : list (environment * HttpRequest.t)) (db : store) :
  ids_are_strings db -> ids_are_strings (run steps db).
Proof.
  revert db. induction steps as [|step steps IH]; intros db Hids; simpl.
  - assumption.
  - apply IH. intros item r' Hr'.
    pose proof (effect_rows _ _ _ (serve_effect db step) item r' Hr') as Hrows.
    destruct (heap db !! item) as [r|] eqn:Hr.
    + destruct Hrows as [-> _]. eauto.
    + destruct Hrows as (user & _ & -> & _). eauto.
Qed.

Lemma database_ids_are_strings : ids_are_strings database.
Proof. intros item r Hr. simpl in Hr. now rewrite lookup_empty in Hr. Qed.

(** C2. Through every sequence of requests (whatever their methods, bodies
    and callers), a row object that exists keeps existing and its [objectId] is
    the one it had: no operation of the handler writes that field. *)
Theorem objectId_never_changes (steps : list (environment * HttpRequest.t))
    (db : store) (item : loc) (r : row.t) :
  heap db !! item = Some r ->
  exists r', heap (run steps db) !! item = Some r'
             /\ row.objectId r' = row.objectId r.
Proof.
  revert db r. induction steps as [|step steps IH]; intros db r Hr; simpl.
  - eauto.
  - pose proof (serve_effect db step) as Heff.
    destruct (effect_allocated _ _ _ Heff item) as [r1 Hr1]; [eauto|].
    pose proof (effect_objectId _ _ _ Heff item r1 Hr1) as Hobj.
    rewrite Hr in Hobj.
    destruct (IH (serve db step) r1 Hr1) as (r' & Hr' & Hobj').
    exists r'. split; [assumption | congruence].
Qed.

(** ** POST *)

(** C1. A POST of a caller whose identity was resolved creates at most one
    row object, and its [objectId] is the caller's: with a body, the row
    appended to [data] holds the identifier of [uuid.v4()], the body's
    [description], [isCompleted] as 0 or 1, [channelOrChatId], and the
    caller's [objectId]; an [objectId] property of the body changes neither
    the response nor the store. *)
Theorem post_owner_is_the_caller (env : environment) (req : HttpRequest.t)
    (user : UserInfo) (db : store) :
  getUserInfo env = Return user ->
  toLowerCase (HttpRequest.method req) = "post" ->
  let db' := snd (module_exports env req db) in
  let body := HttpRequest.body req in
  let item := fresh (dom (heap db)) in
  (forall created r',
     heap db !! created = None -> heap db' !! created = Some r' ->
     row.objectId r' = VString (objectId user))
  /\ (nullish body = None ->
      heap db !! item = None
      /\ module_exports env req db
         = ({| Response.status := 200;
               Response.body := Response.Body ResultUndefined |},
            {| heap :=
                 <[item := row.Row (VString (uuid_v4 env))
                             (get_prop body "description")
                             (VString (objectId user))
                             (one_or_zero (get_prop body "isCompleted"))
                             (get_prop body "channelOrChatId")]> (heap db);
               data := data db ++ [item] |}))
  /\ (forall props spoofed,
        body = HttpRequest.Object props ->
        module_exports env
          {| HttpRequest.method := HttpRequest.method req;
             HttpRequest.query := HttpRequest.query req;
             HttpRequest.body :=
               HttpRequest.Object (<["objectId" := spoofed]> props) |} db
        = module_exports env req db).
Proof.
  intros Hres Hm db' body item. split; [|split].
  - intros created r' Hnew Hr'.
    pose proof (effect_objectId env db db' (module_exports_effect env req db)
                  created r' Hr') as Hobj.
    rewrite Hnew in Hobj. destruct Hobj as (user' & Hres' & ->).
    congruence.
  - intros Hbody. split; [apply fresh_unallocated|].
    unfold module_exports.
    now rewrite (try_block_post env req user Hres db Hm Hbody).
  - intros props spoofed Hprops. subst body. unfold module_exports.
    rewrite (try_block_post env req user Hres db Hm)
      by now rewrite Hprops.
    rewrite (try_block_post env _ user Hres db) by (simpl; assumption || reflexivity).
    rewrite Hprops. simpl. now rewrite !lookup_insert_ne by discriminate.
Qed.

(** ** PUT *)

(** C5. A PUT with a body writes one column: [description], with the body's
    [description], when that is truthy (whatever [isCompleted] the body
    holds), and [isCompleted], with 1 or 0 after the truthiness of the body's
    [isCompleted], otherwise. The rows of [data] whose [id] is strictly equal
    to the body's [id] get that value in that column; every other column of
    every row, every other row, and [data] are as they were. *)
Theorem put_updates_one_field (env : environment) (req : HttpRequest.t)
    (user : UserInfo) (db : store) :
  getUserInfo env = Return user ->
  toLowerCase (HttpRequest.method req) = "put" ->
  nullish (HttpRequest.body req) = None ->
  let body := HttpRequest.body req in
  let id := get_prop body "id" in
  let by_description := ToBoolean (get_prop body "description") in
  let column := if by_description then columns.description else columns.isCompleted in
  let v := if by_description then get_prop body "description"
           else one_or_zero (get_prop body "isCompleted") in
  let db' := snd (module_exports env req db) in
  fst (module_exports env req db)
  = {| Response.status := 200; Response.body := Response.Body ResultUndefined |}
  /\ db' = TodoDatabase.setColumn id column v db
  /\ data db' = data db
  /\ (forall item,
        In item (data db) ->
        IsStrictlyEqual (read (heap db) item columns.id) id = true ->
        heap db' !! item = row.set column v <$> (heap db !! item))
  /\ (forall item,
        In item (data db) ->
        IsStrictlyEqual (read (heap db) item columns.id) id = true ->
        is_Some (heap db !! item) ->
        read (heap db') item column = v)
  /\ (forall item,
        ~ In item (data db)
        \/ IsStrictlyEqual (read (heap db) item columns.id) id = false ->
        heap db' !! item = heap db !! item)
  /\ (forall item c, c <> column -> read (heap db') item c = read (heap db) item c).
Proof.
  intros Hres Hm Hbody body id by_description column v db'.
  assert (Hdb' : db' = TodoDatabase.setColumn id column v db).
  { subst db'. unfold module_exports.
    rewrite (try_block_put env req user Hres db Hm Hbody). simpl.
    subst column v by_description. fold body. now destruct (ToBoolean _). }
  assert (Hcol : column <> columns.id).
  { subst column. now destruct by_description. }
  split; [|split; [assumption|rewrite Hdb'; split; [reflexivity|]]].
  - unfold module_exports.
    now rewrite (try_block_put env req user Hres db Hm Hbody).
  - split; [|split; [|split]].
    + intros item Hin Hhit. now apply setColumn_loop_hit.
    + intros item Hin Hhit [r Hr]. unfold read. simpl.
      rewrite setColumn_loop_hit, Hr by assumption. simpl.
      apply row_get_set.
    + intros item Hmiss. now apply setColumn_loop_miss.
    + intros item c Hc. now apply setColumn_loop_read_other.
Qed.

(** ** DELETE *)

(** C6. After any sequence of requests on the initial store, a DELETE
    without a body (a falsy [req.body]) of a caller whose identity was resolved
    removes from [data] the rows whose [objectId] is the caller's and only
    those: the rows of every other owner stay, in their order, and no row
    object is written. *)
Theorem delete_without_body_removes_own_rows
    (steps : list (environment * HttpRequest.t))
    (env : environment) (req : HttpRequest.t) (user : UserInfo) :
  getUserInfo env = Return user ->
  toLowerCase (HttpRequest.method req) = "delete" ->
  body_truthy (HttpRequest.body req) = false ->
  let db := run steps database in
  let db' := snd (module_exports env req db) in
  fst (module_exports env req db)
  = {| Response.status := 200; Response.body := Response.Body ResultUndefined |}
  /\ heap db' = heap db
  /\ (forall item,
        In item (data db')
        <-> In item (data db)
            /\ read (heap db) item columns.objectId <> VString (objectId user))
  /\ sublist (data db') (data db).
Proof.
  intros Hres Hm Hbody db db'.
  assert (Hdb' : db' = TodoDatabase.deleteBy columns.objectId
                         (VString (objectId user)) db).
  { subst db'. unfold module_exports.
    now rewrite (try_block_delete_own env req user Hres db Hm Hbody). }
  split; [|rewrite Hdb'; split; [reflexivity|split]].
  - unfold module_exports.
    now rewrite (try_block_delete_own env req user Hres db Hm Hbody).
  - intros item. simpl. rewrite filter_In, negb_true_iff.
    apply and_iff_compat_l.
    pose proof (run_owners steps database database_owners) as Hown.
    fold db in Hown. unfold read.
    destruct (heap db !! item) as [r|] eqn:Hr.
    + destruct (Hown item r Hr) as [s Hs]. destruct r as [i d o c ch].
      simpl in *. subst o. simpl.
      rewrite <- not_true_iff_false, String.eqb_eq. split; congruence.
    + simpl. split; [discriminate | reflexivity].
  - apply filter_sublist.
Qed.

Section UnknownId.

Variables (env : environment) (req : HttpRequest.t) (user : UserInfo) (db : store).
Hypothesis resolved : getUserInfo env = Return user.

Local Abbreviation body := (HttpRequest.body req).
Local Abbreviation method := (toLowerCase (HttpRequest.method req)).
Local Abbreviation unchanged :=
  (module_exports env req db
   = ({| Response.status := 200;
         Response.body := Response.Body ResultUndefined |}, db)).

Lemma put_unknown_id :
  method = "put" ->
  nullish body = None ->
  (forall item, In item (data db) ->
     IsStrictlyEqual (read (heap db) item columns.id) (get_prop body "id") = false) ->
  unchanged.
Proof.
  intros Hm Hbody Hnone. unfold module_exports.
  rewrite (try_block_put env req user resolved db Hm Hbody).
  destruct db as [h items]. simpl in *.
  destruct (ToBoolean _); unfold TodoDatabase.setColumn; simpl;
    now rewrite setColumn_loop_none.
Qed.

Lemma delete_unknown_id :
  method = "delete" ->
  body_truthy body = true ->
  (forall item, In item (data db) ->
     IsLooselyEqual (read (heap db) item columns.id) (get_prop body "id") = false) ->
  unchanged.
Proof.
  intros Hm Hbody Hnone. unfold module_exports.
  rewrite (try_block_delete_by_id env req user resolved db Hm Hbody).
  do 2 f_equal.
  now apply (deleteBy_no_match columns.id).
Qed.

End UnknownId.

(** C7. A PUT whose body's [id] is strictly equal ([===], the test of
    [setColumn]) to the [id] of no row, and a DELETE with a truthy body whose
    [id] is loosely equal ([!=] failing, the test of [deleteBy]) to the [id]
    of no row, leave the store as it was and answer with status 200. *)
Theorem unknown_id_changes_nothing (env : environment) (req : HttpRequest.t)
    (user : UserInfo) (db : store) :
  getUserInfo env = Return user ->
  let body := HttpRequest.body req in
  let method := toLowerCase (HttpRequest.method req) in
  let unchanged :=
    module_exports env req db
    = ({| Response.status := 200;
          Response.body := Response.Body ResultUndefined |}, db) in
  (method = "put" ->
   nullish body = None ->
   (forall item, In item (data db) ->
      IsStrictlyEqual (read (heap db) item columns.id) (get_prop body "id") = false) ->
   unchanged)
  /\ (method = "delete" ->
      body_truthy body = true ->
      (forall item, In item (data db) ->
         IsLooselyEqual (read (heap db) item columns.id) (get_prop body "id") = false) ->
      unchanged).
Proof.
  intros Hres body method unchanged. split.
  - now apply put_unknown_id with (user := user).
  - now apply delete_unknown_id with (user := user).
Qed.

(** ** Identifiers *)

Lemma insert_ids (uuid : string) (d o c ch : value) (db : store) :
  store_wf db ->
  ids (TodoDatabase.insert uuid d o c ch db) = ids db ++ [VString uuid].
Proof.
  intros [_ Halloc]. unfold ids, TodoDatabase.insert. simpl.
  rewrite map_app. simpl. f_equal.
  - apply map_ext_in. intros item Hin. unfold read.
    rewrite lookup_insert_ne; [reflexivity|].
    intros Heq. destruct (Halloc item Hin) as [r Hr].
    rewrite <- Heq, fresh_unallocated in Hr. discriminate.
  - unfold read. now rewrite lookup_insert_eq.
Qed.

Lemma database_wf : store_wf database.
Proof. split; [constructor | intros item []]. Qed.

Lemma insert_wf (uuid : string) (d o c ch : value) (db : store) :
  store_wf db -> store_wf (TodoDatabase.insert uuid d o c ch db).
Proof.
  intros [Hnodup Halloc]. split; simpl.
  - apply NoDup_app. split; [assumption|]. split; [|apply NoDup_singleton].
    intros item Hin ->%list_elem_of_singleton.
    apply list_elem_of_In in Hin. destruct (Halloc _ Hin) as [r Hr].
    rewrite fresh_unallocated in Hr. discriminate.
  - intros item [Hin | [<- | []]]%in_app_or.
    + rewrite lookup_insert_ne; [now apply Halloc|].
      intros Heq. destruct (Halloc item Hin) as [r Hr].
      rewrite <- Heq, fresh_unallocated in Hr. discriminate.
    + rewrite lookup_insert_eq. eauto.
Qed.

Lemma effect_wf (env : environment) (db db' : store) :
  effect env db db' -> store_wf db -> store_wf db'.
Proof.
  intros [ | id column v Hcol | user d c ch Hres | column id ] Hwf.
  - assumption.
  - destruct Hwf as [Hnodup Halloc]. split; simpl; [assumption|].
    intros item Hin.
    apply (effect_allocated env db (TodoDatabase.setColumn id column v db));
      [now apply effect_setColumn | now apply Halloc].
  - now apply insert_wf.
  - destruct Hwf as [Hnodup Halloc]. split; simpl.
    + eapply sublist_NoDup; [eassumption | apply filter_sublist].
    + intros item [Hin _]%filter_In. now apply Halloc.
Qed.


Lemma NoDup_map_VString (l : list string) : NoDup l -> NoDup (map VString l).
Proof.
  rewrite !NoDup_ListNoDup. apply Finite.Injective_map_NoDup.
  intros a b Heq. now inversion Heq.
Qed.




(** The same through the handler: the [id]s of the store are among the
    identifiers that [uuid.v4()] returned to the requests served so far. *)
Lemma effect_ids (env : environment) (db db' : store) :
  effect env db db' -> store_wf db ->
  sublist (ids db') (ids db ++ [VString (uuid_v4 env)]).
Proof.
  intros [ | id column v Hcol | user d c ch Hres | column id ] Hwf.
  - now apply sublist_inserts_r.
  - apply sublist_inserts_r. unfold ids. simpl.
    erewrite map_ext; [reflexivity|]. intros item. simpl.
    apply setColumn_loop_read_other. destruct Hcol as [-> | ->]; discriminate.
  - now rewrite insert_ids.
  - apply sublist_inserts_r. unfold ids. simpl.
    apply (fmap_sublist (fun item => read (heap db) item columns.id)).
    apply filter_sublist.
Qed.

Lemma run_ids (steps : list (environment * HttpRequest.t)) (db : store)
    (used : list string) :
  store_wf db ->
  sublist (ids db) (map VString used) ->
  store_wf (run steps db)
  /\ sublist (ids (run steps db))
       (map VString (used ++ map (fun step => uuid_v4 (fst step)) steps)).
Proof.
  revert db used. induction steps as [|step steps IH]; intros db used Hwf Hsub; simpl.
  - now rewrite app_nil_r.
  - pose proof (serve_effect db step) as Heff.
    destruct (IH (serve db step) (used ++ [uuid_v4 (fst step)])) as [Hwf' Hsub'].
    + eapply effect_wf; eassumption.
    + etransitivity; [eapply effect_ids; eassumption|].
      rewrite map_app. simpl. now apply sublist_app.
    + split; [assumption|]. now rewrite <- app_assoc in Hsub'.
Qed.

(** Through any sequence of requests on the initial store, when [uuid.v4()]
    returns a different identifier to each request, no two rows of the store
    have the same [id]. *)
Theorem served_ids_are_unique (steps : list (environment * HttpRequest.t)) :
  NoDup (map (fun step => uuid_v4 (fst step)) steps) ->
  NoDup (ids (run steps database)).
Proof.
  intros Huuid.
  destruct (run_ids steps database [] database_wf) as [_ Hsub].
  { constructor. }
  eapply sublist_NoDup; [|exact Hsub]. simpl.
  now apply NoDup_map_VString.
Qed.

(** ** [===] against [!=] *)

(** C10. [listBy] compares with [===] and [deleteBy] with [!=]. What
    [listBy(column, value)] returns, [deleteBy(column, value)] removes; the
    converse fails: on the store holding one row whose [isCompleted] is the
    number 1, [listBy(isCompleted, "1")] returns nothing and
    [deleteBy(isCompleted, "1")] removes the row. *)
Theorem deleteBy_removes_more_than_listBy_returns :
  (forall column v db item,
     In item (TodoDatabase.listBy column v db) ->
     ~ In item (data (TodoDatabase.deleteBy column v db)))
  /\ IsStrictlyEqual (VNumber 1%float) (VString "1") = false
  /\ IsLooselyEqual (VNumber 1%float) (VString "1") = true
  /\ (let db :=
        TodoDatabase.insert "id-1" (VString "buy milk") (VString "U1")
          (VNumber 1%float) (VString "chat1") database in
      data db = [1%positive]
      /\ read (heap db) 1%positive columns.isCompleted = VNumber 1%float
      /\ TodoDatabase.listBy columns.isCompleted (VString "1") db = []
      /\ data (TodoDatabase.deleteBy columns.isCompleted (VString "1") db) = []).
Proof.
  split; [|repeat split; vm_compute; reflexivity].
  intros column v db item. rewrite listBy_filter. simpl.
  rewrite !filter_In, negb_true_iff. intros [_ Hstrict] [_ Hloose].
  apply IsStrictlyEqual_loose in Hstrict. congruence.
Qed.

(** ** Further properties of the handler *)

(** A failed identity resolution is answered with status 500 and the
    message of the error, whatever the method, and the store is not touched. *)
Theorem failed_resolution_is_status_500 (env : environment) (req : HttpRequest.t)
    (err : Error) (db : store) :
  getUserInfo env = Throw err ->
  module_exports env req db
  = ({| Response.status := 500;
        Response.body := Response.ErrorBody (message err) |}, db).
Proof.
  intros Hres. unfold module_exports, try_block, bind, lift.
  now rewrite Hres.
Qed.

(** A PUT or POST without a body (undefined or null) is answered with status
    500, and the store is not touched. *)
Theorem missing_body_is_status_500 (env : environment) (req : HttpRequest.t)
    (user : UserInfo) (what : string) (db : store) :
  getUserInfo env = Return user ->
  toLowerCase (HttpRequest.method req) = "put"
  \/ toLowerCase (HttpRequest.method req) = "post" ->
  nullish (HttpRequest.body req) = Some what ->
  Response.status (fst (module_exports env req db)) = 500
  /\ snd (module_exports env req db) = db.
Proof.
  intros Hres Hm Hbody.
  destruct (try_block_nullish env req user Hres db what Hm Hbody) as [err Herr].
  unfold module_exports. now rewrite Herr.
Qed.

(** After a POST to a chat, a GET of that chat returns the created row, last
    in the list; a GET of another chat does not return it. *)
Theorem post_then_get (env env' : environment) (req req' : HttpRequest.t)
    (user user' : UserInfo) (chat : string) (db : store) :
  getUserInfo env = Return user ->
  toLowerCase (HttpRequest.method req) = "post" ->
  nullish (HttpRequest.body req) = None ->
  get_prop (HttpRequest.body req) "channelOrChatId" = VString chat ->
  getUserInfo env' = Return user' ->
  toLowerCase (HttpRequest.method req') = "get" ->
  let created := fresh (dom (heap db)) in
  let db1 := snd (module_exports env req db) in
  exists items,
    module_exports env' req' db1
    = ({| Response.status := 200;
          Response.body := Response.Body (ResultArray items) |}, db1)
    /\ (HttpRequest.query req' !! "channelOrChatId" = Some chat ->
        exists before, items = before ++ [created])
    /\ (forall other,
          HttpRequest.query req' !! "channelOrChatId" = Some other ->
          other <> chat -> ~ In created items).
Proof.
  intros Hres Hm Hbody Hchat Hres' Hm' created db1.
  assert (Hdb1 : db1 = TodoDatabase.insert (uuid_v4 env)
            (get_prop (HttpRequest.body req) "description")
            (VString (objectId user))
            (one_or_zero (get_prop (HttpRequest.body req) "isCompleted"))
            (VString chat) db).
  { subst db1. unfold module_exports.
    now rewrite (try_block_post env req user Hres db Hm Hbody), Hchat. }
  eexists. split; [|split].
  - unfold module_exports.
    now rewrite (try_block_get env' req' user' Hres' db1 Hm').
  - intros Hq. rewrite listBy_filter, Hdb1. simpl. fold created.
    rewrite List.filter_app. simpl. unfold read at 2, query_channelOrChatId.
    rewrite lookup_insert_eq, Hq. simpl. rewrite String.eqb_refl. eauto.
  - intros other Hq Hne. rewrite listBy_filter, Hdb1. simpl. fold created.
    rewrite filter_In. intros [_ Heq]. unfold read, query_channelOrChatId in Heq.
    rewrite lookup_insert_eq, Hq in Heq. simpl in Heq.
    apply String.eqb_eq in Heq. congruence.
Qed.

Lemma NoDup_map_inj_on {A B} (f : A -> B) (l : list A) (x y : A) :
  NoDup (map f l) -> In x l -> In y l -> f x = f y -> x = y.
Proof.
  rewrite NoDup_ListNoDup.
  induction l as [|a l IH]; simpl; intros Hnodup Hx Hy Hxy; [destruct Hx|].
  inversion Hnodup as [|? ? Hnotin Hnodup']; subst.
  destruct Hx as [-> | Hx], Hy as [-> | Hy]; try reflexivity.
  - exfalso. apply Hnotin. rewrite Hxy. now apply in_map.
  - exfalso. apply Hnotin. rewrite <- Hxy. now apply in_map.
  - now apply IH.
Qed.

(** After any sequence of requests on the initial store, a PUT or DELETE
    whose body holds as [id] a string that is the [id] of no row leaves the
    store as it was and answers with status 200: the rows' [id]s being
    strings, [===] and [!=] agree on them. *)
Theorem unknown_string_id_changes_nothing
    (steps : list (environment * HttpRequest.t))
    (env : environment) (req : HttpRequest.t) (user : UserInfo) (id : string) :
  getUserInfo env = Return user ->
  toLowerCase (HttpRequest.method req) = "put"
  \/ toLowerCase (HttpRequest.method req) = "delete" ->
  get_prop (HttpRequest.body req) "id" = VString id ->
  ~ In (VString id) (ids (run steps database)) ->
  module_exports env req (run steps database)
  = ({| Response.status := 200;
        Response.body := Response.Body ResultUndefined |}, run steps database).
Proof.
  intros Hres Hm Hid Hnew.
  assert (Hobject : exists props,
             HttpRequest.body req = HttpRequest.Object props).
  { destruct (HttpRequest.body req) as [v|props]; [discriminate | eauto]. }
  destruct Hobject as [props Hprops].
  assert (Hne : forall item, In item (data (run steps database)) ->
            read (heap (run steps database)) item columns.id <> VString id).
  { intros item Hin Heq. apply Hnew. rewrite <- Heq. unfold ids.
    now apply (in_map (fun item => read _ item columns.id)). }
  destruct Hm as [Hm | Hm].
  - apply (put_unknown_id env req user _ Hres Hm).
    + now rewrite Hprops.
    + intros item Hin. rewrite Hid. apply not_true_iff_false.
      rewrite IsStrictlyEqual_string. now apply Hne.
  - apply (delete_unknown_id env req user _ Hres Hm).
    + now rewrite Hprops.
    + intros item Hin. rewrite Hid. specialize (Hne item Hin).
      pose proof (run_ids_are_strings steps database database_ids_are_strings)
        as Hstr.
      unfold read in *. destruct (heap _ !! item) as [r|] eqn:Hr; [|reflexivity].
      destruct (Hstr item r Hr) as [s Hs]. destruct r as [i d o c ch].
      simpl in *. subst i. simpl. apply not_true_iff_false.
      rewrite String.eqb_eq. congruence.
Qed.

(** After any sequence of requests on the initial store, a DELETE whose body
    holds a string as [id] removes the rows with that [id] and no other, keeps
    the others in their order and writes no row object; when [uuid.v4()]
    returned a different identifier to each request, that is one row at
    most. *)
Theorem delete_by_id_removes_that_row
    (steps : list (environment * HttpRequest.t))
    (env : environment) (req : HttpRequest.t) (user : UserInfo) (id : string) :
  getUserInfo env = Return user ->
  toLowerCase (HttpRequest.method req) = "delete" ->
  get_prop (HttpRequest.body req) "id" = VString id ->
  let db := run steps database in
  let db' := snd (module_exports env req db) in
  heap db' = heap db
  /\ (forall item,
        In item (data db')
        <-> In item (data db) /\ read (heap db) item columns.id <> VString id)
  /\ sublist (data db') (data db)
  /\ (NoDup (map (fun step => uuid_v4 (fst step)) steps) ->
      forall a b,
        In a (data db) -> In b (data db) ->
        read (heap db) a columns.id = VString id ->
        read (heap db) b columns.id = VString id ->
        a = b).
Proof.
  intros Hres Hm Hid db db'.
  assert (Hbody : body_truthy (HttpRequest.body req) = true).
  { destruct (HttpRequest.body req) as [v|props]; [discriminate | reflexivity]. }
  assert (Hdb' : db' = TodoDatabase.deleteBy columns.id (VString id) db).
  { subst db'. unfold module_exports.
    now rewrite (try_block_delete_by_id env req user Hres db Hm Hbody), Hid. }
  rewrite Hdb'. split; [reflexivity|split; [|split]].
  - intros item. simpl. rewrite filter_In, negb_true_iff.
    apply and_iff_compat_l.
    pose proof (run_ids_are_strings steps database database_ids_are_strings)
      as Hstr.
    fold db in Hstr. unfold read.
    destruct (heap db !! item) as [r|] eqn:Hr.
    + destruct (Hstr item r Hr) as [s Hs]. destruct r as [i d o c ch].
      simpl in *. subst i. simpl.
      rewrite <- not_true_iff_false, String.eqb_eq. split; congruence.
    + simpl. split; [discriminate | reflexivity].
  - apply filter_sublist.
  - intros Huuid a b Ha Hb Haid Hbid.
    apply (NoDup_map_inj_on (fun item => read (heap db) item columns.id) (data db));
      [|assumption..|congruence].
    destruct (run_ids steps database [] database_wf) as [_ Hsub].
    { constructor. }
    eapply sublist_NoDup; [|exact Hsub]. simpl.
    now apply NoDup_map_VString.
Qed.

(** ** The scenario *)

Example two_posts_store :
  run two_posts database
  = {| heap := <[2%positive := bob]> (<[1%positive := milk]> ∅);
       data := [1%positive; 2%positive] |}.
Proof. vm_compute. reflexivity. Qed.

Lemma post_owner_is_the_caller_witness :
  module_exports (resolved U1 "id-1") post_milk database
  = ({| Response.status := 200; Response.body := Response.Body ResultUndefined |},
     {| heap := <[1%positive := milk]> ∅; data := [1%positive] |}).
Proof.
  destruct (post_owner_is_the_caller (resolved U1 "id-1") post_milk U1 database
              eq_refl eq_refl) as (_ & Hrow & _).
  destruct (Hrow eq_refl) as [_ Heq]. rewrite Heq. vm_compute. reflexivity.
Defined.

Lemma objectId_never_changes_witness :
  exists r',
    heap (run [(resolved U2 "id-3", put_both); (resolved U1 "id-4", delete_own)]
            (run two_posts database)) !! 1%positive = Some r'
    /\ row.objectId r' = VString "U1".
Proof.
  apply (objectId_never_changes
           [(resolved U2 "id-3", put_both); (resolved U1 "id-4", delete_own)]
           (run two_posts database) 1%positive milk).
  vm_compute. reflexivity.
Defined.

Lemma put_updates_one_field_witness :
  module_exports (resolved U2 "id-3") put_both (run two_posts database)
  = ({| Response.status := 200; Response.body := Response.Body ResultUndefined |},
     {| heap :=
          <[2%positive := bob]>
            (<[1%positive :=
                 row.Row (VString "id-1") (VString "buy oat milk") (VString "U1")
                   (VNumber 0%float) (VString "chat1")]> ∅);
        data := [1%positive; 2%positive] |}).
Proof.
  destruct (put_updates_one_field (resolved U2 "id-3") put_both U2
              (run two_posts database) eq_refl eq_refl eq_refl)
    as (Hres & Hdb & _).
  rewrite (surjective_pairing (module_exports _ _ _)), Hres, Hdb.
  vm_compute. reflexivity.
Defined.

Lemma delete_without_body_removes_own_rows_witness :
  In 2%positive
    (data (snd (module_exports (resolved U1 "id-3") delete_own
                  (run two_posts database))))
  /\ ~ In 1%positive
        (data (snd (module_exports (resolved U1 "id-3") delete_own
                      (run two_posts database)))).
Proof.
  destruct (delete_without_body_removes_own_rows two_posts
              (resolved U1 "id-3") delete_own U1 eq_refl eq_refl eq_refl)
    as (_ & _ & Hiff & _).
  split.
  - apply Hiff. split; vm_compute; [tauto | discriminate].
  - intros Hin. apply Hiff in Hin as [_ Hne]. apply Hne. vm_compute. reflexivity.
Defined.

Lemma unknown_id_changes_nothing_witness :
  module_exports (resolved U1 "id-3") put_unknown (run two_posts database)
  = ({| Response.status := 200; Response.body := Response.Body ResultUndefined |},
     run two_posts database)
  /\ module_exports (resolved U1 "id-3")
       (request "delete"
          (HttpRequest.Object (list_to_map [("id", VNumber 1%float)])))
       (run two_posts database)
     = ({| Response.status := 200; Response.body := Response.Body ResultUndefined |},
        run two_posts database).
Proof.
  split.
  - apply (proj1 (unknown_id_changes_nothing (resolved U1 "id-3") put_unknown U1
                    (run two_posts database) eq_refl)); [reflexivity..|].
    intros item Hin. vm_compute in Hin.
    destruct Hin as [<- | [<- | []]]; vm_compute; reflexivity.
  - apply (proj2 (unknown_id_changes_nothing (resolved U1 "id-3") _ U1
                    (run two_posts database) eq_refl)); [reflexivity..|].
    intros item Hin. vm_compute in Hin.
    destruct Hin as [<- | [<- | []]]; vm_compute; reflexivity.
Defined.

Lemma other_method_is_a_no_op_witness :
  module_exports (resolved U1 "id-3") patch (run two_posts database)
  = ({| Response.status := 200;
        Response.body := Response.Body (ResultString "") |},
     run two_posts database).
Proof.
  apply (other_method_is_a_no_op (resolved U1 "id-3") patch U1).
  - reflexivity.
  - repeat constructor.
Defined.

Lemma served_ids_are_unique_witness : NoDup (ids (run two_posts database)).
Proof.
  apply (served_ids_are_unique two_posts).
  apply NoDup_ListNoDup. repeat constructor; simpl; intuition discriminate.
Defined.

Lemma failed_resolution_is_status_500_witness :
  module_exports (unresolved "token expired" "id-3") delete_own
    (run two_posts database)
  = ({| Response.status := 500;
        Response.body := Response.ErrorBody "token expired" |},
     run two_posts database).
Proof.
  apply (failed_resolution_is_status_500 (unresolved "token expired" "id-3")
           delete_own {| message := "token expired" |}).
  reflexivity.
Defined.

Lemma missing_body_is_status_500_witness :
  Response.status
    (fst (module_exports (resolved U1 "id-3") (request "POST" no_body)
            (run two_posts database))) = 500
  /\ snd (module_exports (resolved U1 "id-3") (request "POST" no_body)
            (run two_posts database))
     = run two_posts database.
Proof.
  apply (missing_body_is_status_500 (resolved U1 "id-3") (request "POST" no_body)
           U1 "undefined"); [reflexivity | now right | reflexivity].
Defined.

Lemma post_then_get_witness :
  exists items,
    module_exports (resolved U2 "id-2") (get_chat "chat1")
      (snd (module_exports (resolved U1 "id-1") post_milk database))
    = ({| Response.status := 200;
          Response.body := Response.Body (ResultArray items) |},
       snd (module_exports (resolved U1 "id-1") post_milk database))
    /\ exists before, items = before ++ [1%positive].
Proof.
  destruct (post_then_get (resolved U1 "id-1") (resolved U2 "id-2") post_milk
              (get_chat "chat1") U1 U2 "chat1" database
              eq_refl eq_refl eq_refl eq_refl eq_refl eq_refl)
    as (items & Hget & Hsame & _).
  exists items. split; [exact Hget|]. now apply Hsame.
Defined.

Lemma unknown_string_id_changes_nothing_witness :
  module_exports (resolved U1 "id-3") (delete_id "id-9") (run two_posts database)
  = ({| Response.status := 200; Response.body := Response.Body ResultUndefined |},
     run two_posts database).
Proof.
  apply (unknown_string_id_changes_nothing two_posts (resolved U1 "id-3")
           (delete_id "id-9") U1 "id-9"); [reflexivity | now right | reflexivity |].
  vm_compute. intuition discriminate.
Defined.

Lemma delete_by_id_removes_that_row_witness :
  In 2%positive
    (data (snd (module_exports (resolved U1 "id-3") (delete_id "id-1")
                  (run two_posts database))))
  /\ ~ In 1%positive
        (data (snd (module_exports (resolved U1 "id-3") (delete_id "id-1")
                      (run two_posts database))))
  /\ (forall a b,
        In a (data (run two_posts database)) ->
        In b (data (run two_posts database)) ->
        read (heap (run two_posts database)) a columns.id = VString "id-1" ->
        read (heap (run two_posts database)) b columns.id = VString "id-1" ->
        a = b).
Proof.
  destruct (delete_by_id_removes_that_row two_posts (resolved U1 "id-3")
              (delete_id "id-1") U1 "id-1" eq_refl eq_refl eq_refl)
    as (_ & Hiff & _ & Hone).
  split; [|split].
  - apply Hiff. split; vm_compute; [tauto | discriminate].
  - intros Hin. apply Hiff in Hin as [_ Hne]. apply Hne. vm_compute. reflexivity.
  - apply Hone. apply NoDup_ListNoDup.
    repeat constructor; simpl; intuition discriminate.
Defined.

(** * More properties of the handler and the store *)

(** ** The calls of a request *)

Lemma module_exports_call (env : environment) (req : HttpRequest.t) (db : store) :
  handler_call env req db (snd (module_exports env req db)).
Proof.
  unfold module_exports, try_block, bind, lift.
  destruct (getUserInfo env) as [user|err] eqn:Hres; simpl; [|constructor].
  destruct (String.eqb_spec (toLowerCase (HttpRequest.method req)) "get");
    simpl; [constructor|].
  destruct (String.eqb_spec (toLowerCase (HttpRequest.method req)) "put") as [Hput|_];
    simpl.
  { unfold prop. destruct (nullish _); simpl; [constructor|].
    destruct (ToBoolean _) eqn:Hd; simpl; now constructor. }
  destruct (String.eqb_spec (toLowerCase (HttpRequest.method req)) "post") as [Hpost|_];
    simpl.
  { unfold prop. destruct (nullish _); simpl; [constructor|].
    now apply call_insert_row with (user := user). }
  destruct (String.eqb_spec (toLowerCase (HttpRequest.method req)) "delete") as [Hdel|_];
    simpl; [|constructor].
  destruct (body_truthy _) eqn:Hb; simpl.
  - unfold prop. destruct (nullish _); simpl; [constructor|]. now constructor.
  - now apply call_delete_own with (user := user).
Qed.

Lemma handler_call_effect (env : environment) (req : HttpRequest.t) (db db' : store) :
  handler_call env req db db' -> effect env db db'.
Proof.
  intros [ | Hm Hd | Hm Hd | user Hres Hm | Hm Hb | user Hres Hm Hb ].
  - constructor.
  - constructor. now left.
  - constructor. now right.
  - now apply effect_insert with (user := user).
  - constructor.
  - constructor.
Qed.

(** What the loop of [setColumn] leaves in a row object: the row, or the row
    with [v] in [column]. *)
Lemma setColumn_loop_cases (id : value) (column : columns.t) (v : value)
    (items : list loc) (h : gmap loc row.t) (item : loc) (r' : row.t) :
  fold_left (TodoDatabase.setColumn_step id column v) items h !! item = Some r' ->
  exists r, h !! item = Some r /\ (r' = r \/ r' = row.set column v r).
Proof.
  revert h. induction items as [|a items IH]; intros h Hr'; simpl in Hr'.
  - eauto.
  - destruct (IH _ Hr') as (r1 & Hr1 & Hcase). clear IH Hr'.
    unfold TodoDatabase.setColumn_step in Hr1.
    destruct (IsStrictlyEqual (read h a columns.id) id); [|eauto].
    rewrite lookup_alter in Hr1. case_decide as Heq; [|eauto]. subst a.
    destruct (h !! item) as [r|]; simpl in Hr1; [|discriminate].
    inversion Hr1; subst r1. exists r. split; [reflexivity|]. right.
    destruct Hcase as [-> | ->]; [reflexivity | apply row_set_twice].
Qed.

Lemma run_wf (steps : list (environment * HttpRequest.t)) (db : store) :
  store_wf db -> store_wf (run steps db).
Proof.
  revert db. induction steps as [|step steps IH]; intros db Hwf; simpl.
  - assumption.
  - apply IH. eapply effect_wf; [apply serve_effect | assumption].
Qed.

(** ** Invariants of the served store *)

(** The references of [data] are distinct and each points to a row object,
    after any sequence of requests on the initial store: no row is listed
    twice, and [listBy], [setColumn] and [deleteBy] never meet a reference
    without a row. *)
Theorem served_store_is_well_formed (steps : list (environment * HttpRequest.t)) :
  NoDup (data (run steps database))
  /\ (forall item,
        In item (data (run steps database)) ->
        exists r, heap (run steps database) !! item = Some r)
  /\ length (ids (run steps database)) = length (data (run steps database)).
Proof.
  destruct (run_wf steps database database_wf) as [Hnodup Halloc].
  split; [assumption|]. split.
  - intros item Hin. destruct (Halloc item Hin) as [r Hr]. eauto.
  - unfold ids. apply length_map.
Qed.

Lemma handler_call_completion (env : environment) (req : HttpRequest.t)
    (db db' : store) :
  handler_call env req db db' -> completion_is_a_bit db -> completion_is_a_bit db'.
Proof.
  assert (Hbit : forall c, one_or_zero c = VNumber 0%float
                           \/ one_or_zero c = VNumber 1%float).
  { intros c. unfold one_or_zero. destruct (ToBoolean c); auto. }
  intros [ | Hm Hd | Hm Hd | user Hres Hm | Hm Hb | user Hres Hm Hb ] Hinv item r' Hr';
    simpl in Hr'; try (now apply (Hinv item r')).
  - destruct (setColumn_loop_cases _ _ _ _ _ _ _ Hr') as (r & Hr & [-> | ->]).
    + now apply (Hinv item r).
    + destruct r; simpl. now apply (Hinv item _ Hr).
  - destruct (setColumn_loop_cases _ _ _ _ _ _ _ Hr') as (r & Hr & [-> | ->]).
    + now apply (Hinv item r).
    + destruct r; simpl. apply Hbit.
  - destruct (decide (fresh (dom (heap db)) = item)) as [<- | Hne].
    + rewrite lookup_insert_eq in Hr'. inversion Hr'; subst r'. simpl. apply Hbit.
    + rewrite lookup_insert_ne in Hr' by assumption. now apply (Hinv item r').
Qed.

(** [isCompleted] is stored as the number 0 or the number 1, whatever the
    requests held in that field: POST and PUT coerce it with [? 1 : 0], and
    nothing else writes the column. *)
Theorem isCompleted_is_0_or_1 (steps : list (environment * HttpRequest.t))
    (item : loc) (r : row.t) :
  heap (run steps database) !! item = Some r ->
  row.isCompleted r = VNumber 0%float \/ row.isCompleted r = VNumber 1%float.
Proof.
  assert (Hinv : forall db, completion_is_a_bit db ->
                            completion_is_a_bit (run steps db)).
  { induction steps as [|step steps IH]; intros db Hdb; simpl; [assumption|].
    apply IH. eapply handler_call_completion; [|eassumption].
    apply module_exports_call. }
  apply (Hinv database). intros it r0 Hr0. simpl in Hr0.
  now rewrite lookup_empty in Hr0.
Qed.

(** The loop of [setColumn] on [description] or [isCompleted] keeps the [id]
    and the [channelOrChatId] of every row object. *)
Lemma effect_fixed_columns (env : environment) (db db' : store) :
  effect env db db' ->
  forall item r, heap db !! item = Some r ->
    exists r', heap db' !! item = Some r'
               /\ row.id r' = row.id r
               /\ row.channelOrChatId r' = row.channelOrChatId r.
Proof.
  intros [ | id column v Hcol | user d c ch Hres | column id ] item r Hr; simpl.
  - eauto.
  - pose proof (setColumn_loop_keeps id column v
                  (fun r => (row.id r, row.channelOrChatId r))) as Hkeep.
    specialize (Hkeep ltac:(intros r0; destruct Hcol as [-> | ->], r0; reflexivity)
                  (data db) (heap db) item).
    rewrite Hr in Hkeep.
    destruct (fold_left _ _ _ !! item) as [r'|]; simpl in Hkeep; [|discriminate].
    exists r'. split; [reflexivity|]. split; congruence.
  - exists r. split; [|auto]. rewrite lookup_insert_ne; [assumption|].
    intros Heq. rewrite <- Heq, fresh_unallocated in Hr. discriminate.
  - eauto.
Qed.

(** Through every sequence of requests, a row object keeps the [id] that
    [insert] gave it and the [channelOrChatId] it was posted to: a row never
    moves to another chat, and no request renames it. *)
Theorem id_and_chat_never_change (steps : list (environment * HttpRequest.t))
    (db : store) (item : loc) (r : row.t) :
  heap db !! item = Some r ->
  exists r', heap (run steps db) !! item = Some r'
             /\ row.id r' = row.id r
             /\ row.channelOrChatId r' = row.channelOrChatId r.
Proof.
  revert db r. induction steps as [|step steps IH]; intros db r Hr; simpl.
  - eauto.
  - destruct (effect_fixed_columns _ _ _ (serve_effect db step) item r Hr)
      as (r1 & Hr1 & Hid1 & Hch1).
    destruct (IH (serve db step) r1 Hr1) as (r' & Hr' & Hid & Hch).
    exists r'. split; [assumption|]. split; congruence.
Qed.

(** A PUT never stores a falsy [description]: after the request every row
    object has the description it had or a truthy one. An empty string, null
    or 0 sent as [description] makes the request an update of [isCompleted]
    (to 0 when the body holds none) and leaves the description alone. *)
Theorem put_never_clears_a_description (env : environment) (req : HttpRequest.t)
    (db : store) (item : loc) (r' : row.t) :
  toLowerCase (HttpRequest.method req) = "put" ->
  heap (snd (module_exports env req db)) !! item = Some r' ->
  exists r, heap db !! item = Some r
            /\ (row.description r' = row.description r
                \/ (ToBoolean (row.description r') = true
                    /\ row.description r'
                       = get_prop (HttpRequest.body req) "description")).
Proof.
  intros Hput Hr'.
  destruct (module_exports_call env req db)
    as [ | Hm Hd | Hm Hd | user Hres Hm | Hm Hb | user Hres Hm Hb ];
    try (rewrite Hput in Hm; discriminate); simpl in Hr'; [eauto| |].
  - destruct (setColumn_loop_cases _ _ _ _ _ _ _ Hr') as (r & Hr & [-> | ->]);
      exists r; (split; [assumption|]); [now left|].
    right. destruct r; simpl. now split.
  - destruct (setColumn_loop_cases _ _ _ _ _ _ _ Hr') as (r & Hr & [-> | ->]);
      exists r; (split; [assumption|]); left; [reflexivity|].
    now destruct r.
Qed.

(** ** GET *)

(** A GET is read-only: the store is left as it was, the status is 200 and
    the result is the rows of [data], in order, whose [channelOrChatId] is
    strictly equal to the query parameter. Without the parameter the value
    compared is [undefined]: the rows returned are those posted without a
    [channelOrChatId], never all of them. *)
Theorem get_reads_one_chat (env : environment) (req : HttpRequest.t)
    (user : UserInfo) (db : store) :
  getUserInfo env = Return user ->
  toLowerCase (HttpRequest.method req) = "get" ->
  exists items,
    module_exports env req db
    = ({| Response.status := 200;
          Response.body := Response.Body (ResultArray items) |}, db)
    /\ sublist items (data db)
    /\ (forall chat,
          HttpRequest.query req !! "channelOrChatId" = Some chat ->
          forall item,
            In item items
            <-> In item (data db)
                /\ read (heap db) item columns.channelOrChatId = VString chat)
    /\ (HttpRequest.query req !! "channelOrChatId" = None ->
        forall item,
          In item items
          <-> In item (data db)
              /\ read (heap db) item columns.channelOrChatId = VUndefined).
Proof.
  intros Hres Hm. eexists. split; [|split; [|split]].
  - unfold module_exports. now rewrite (try_block_get env req user Hres db Hm).
  - rewrite listBy_filter. apply filter_sublist.
  - intros chat Hq item. rewrite listBy_filter, filter_In.
    unfold query_channelOrChatId. rewrite Hq.
    now rewrite IsStrictlyEqual_string.
  - intros Hq item. rewrite listBy_filter, filter_In.
    unfold query_channelOrChatId. rewrite Hq.
    now rewrite IsStrictlyEqual_undefined.
Qed.

(** ** No check of ownership *)

(** GET, PUT and DELETE with a body do not look at who the caller is: two
    callers whose identities were resolved get the same response and leave the
    same store. Only POST (the owner of the new row) and DELETE without a body
    use the caller's [objectId]; in particular any caller may update or delete
    the row of another by its [id]. *)
Theorem caller_is_not_checked (env env' : environment) (req : HttpRequest.t)
    (user user' : UserInfo) (db : store) :
  getUserInfo env = Return user ->
  getUserInfo env' = Return user' ->
  toLowerCase (HttpRequest.method req) = "get"
  \/ toLowerCase (HttpRequest.method req) = "put"
  \/ (toLowerCase (HttpRequest.method req) = "delete"
      /\ body_truthy (HttpRequest.body req) = true) ->
  module_exports env req db = module_exports env' req db.
Proof.
  intros Hres Hres' Hm. unfold module_exports.
  enough (try_block env req db = try_block env' req db) as -> by reflexivity.
  unfold try_block, bind, lift. rewrite Hres, Hres'.
  destruct Hm as [-> | [-> | [-> ->]]]; reflexivity.
Qed.

(** ** [deleteBy] and [listBy] together *)

Lemma filter_none {A} (p : A -> bool) (l : list A) :
  (forall a, In a l -> p a = false) -> List.filter p l = [].
Proof.
  induction l as [|a l IH]; simpl; intros Hnone; [reflexivity|].
  rewrite (Hnone a) by now left. apply IH. intros b Hb. apply Hnone. now right.
Qed.

Lemma deleteBy_twice (column : columns.t) (v : value) (db : store) :
  TodoDatabase.deleteBy column v (TodoDatabase.deleteBy column v db)
  = TodoDatabase.deleteBy column v db.
Proof.
  apply deleteBy_no_match. intros item Hin. simpl in *.
  apply filter_In in Hin as [_ Hkeep]. now apply negb_true_iff in Hkeep.
Qed.

(** After [deleteBy(column, value)], [listBy(column, value)] finds nothing,
    and a second [deleteBy(column, value)] changes nothing; the rows that
    [listBy] finds for another column or value after the deletion are among
    those it found before. *)
Theorem deleteBy_then_listBy (column : columns.t) (v : value) (db : store) :
  TodoDatabase.listBy column v (TodoDatabase.deleteBy column v db) = []
  /\ TodoDatabase.deleteBy column v (TodoDatabase.deleteBy column v db)
     = TodoDatabase.deleteBy column v db
  /\ (forall column' v',
        sublist
          (TodoDatabase.listBy column' v' (TodoDatabase.deleteBy column v db))
          (TodoDatabase.listBy column' v' db)).
Proof.
  split; [|split].
  - rewrite listBy_filter. apply filter_none. intros item Hin. simpl in *.
    apply filter_In in Hin as [_ Hkeep]. apply negb_true_iff in Hkeep.
    apply not_true_iff_false. intros Hstrict.
    apply IsStrictlyEqual_loose in Hstrict. congruence.
  - apply deleteBy_twice.
  - intros column' v'. rewrite !listBy_filter. simpl.
    generalize (data db) as items. intros items.
    induction items as [|a items IH]; simpl; [constructor|].
    destruct (negb _); simpl;
      destruct (IsStrictlyEqual (read (heap db) a column') v');
      [now apply sublist_skip | assumption | now apply sublist_cons | assumption].
Qed.

(** ** PUT *)

Lemma setColumn_listBy_other (id : value) (column c : columns.t) (v w : value)
    (db : store) :
  c <> column ->
  TodoDatabase.listBy c w (TodoDatabase.setColumn id column v db)
  = TodoDatabase.listBy c w db.
Proof.
  intros Hc. rewrite !listBy_filter. simpl. apply filter_ext. intros item.
  now rewrite setColumn_loop_read_other.
Qed.

(** A PUT moves no row between chats, owners or identifiers: what [listBy]
    returns for [channelOrChatId], [objectId] or [id] is the same before and
    after the request, so a GET of any chat lists the same rows. *)
Theorem put_keeps_every_listing (env : environment) (req : HttpRequest.t)
    (db : store) (c : columns.t) (w : value) :
  toLowerCase (HttpRequest.method req) = "put" ->
  c <> columns.description ->
  c <> columns.isCompleted ->
  data (snd (module_exports env req db)) = data db
  /\ TodoDatabase.listBy c w (snd (module_exports env req db))
     = TodoDatabase.listBy c w db.
Proof.
  intros Hput Hd Hc.
  destruct (module_exports_call env req db)
    as [ | Hm _ | Hm _ | user Hres Hm | Hm Hb | user Hres Hm Hb ];
    try (rewrite Hput in Hm; discriminate).
  - auto.
  - split; [reflexivity | now apply setColumn_listBy_other].
  - split; [reflexivity | now apply setColumn_listBy_other].
Qed.

(** ** Serving a request twice *)

Lemma setColumn_twice (id : value) (column : columns.t) (v : value) (db : store) :
  column <> columns.id ->
  TodoDatabase.setColumn id column v (TodoDatabase.setColumn id column v db)
  = TodoDatabase.setColumn id column v db.
Proof.
  intros Hcol. unfold TodoDatabase.setColumn. simpl. f_equal.
  apply map_eq. intros item.
  set (h1 := fold_left _ (data db) (heap db)).
  assert (Hid : read h1 item columns.id = read (heap db) item columns.id).
  { apply setColumn_loop_read_other. congruence. }
  destruct (in_dec Pos.eq_dec item (data db)) as [Hin | Hnot].
  - destruct (IsStrictlyEqual (read (heap db) item columns.id) id) eqn:Hhit.
    + rewrite setColumn_loop_hit by (assumption || congruence).
      unfold h1. rewrite setColumn_loop_hit by assumption.
      destruct (heap db !! item) as [r|]; simpl; [|reflexivity].
      now rewrite row_set_twice.
    + apply setColumn_loop_miss; [assumption|]. right. congruence.
  - apply setColumn_loop_miss; [assumption|]. now left.
Qed.

Lemma same_user_same_response (env env' : environment) (req : HttpRequest.t)
    (db : store) :
  same_user env env' ->
  toLowerCase (HttpRequest.method req) <> "post" ->
  module_exports env' req db = module_exports env req db.
Proof.
  intros (user & Hres & Hres') Hnot. unfold module_exports.
  enough (try_block env' req db = try_block env req db) as -> by reflexivity.
  unfold try_block, bind, lift. rewrite Hres, Hres'.
  destruct (String.eqb_spec (toLowerCase (HttpRequest.method req)) "get");
    [reflexivity|].
  destruct (String.eqb_spec (toLowerCase (HttpRequest.method req)) "put");
    [reflexivity|].
  destruct (String.eqb_spec (toLowerCase (HttpRequest.method req)) "post");
    [contradiction | reflexivity].
Qed.

(** GET, PUT and DELETE are idempotent on the store: serving the request a
    second time for the same caller gives the store that the first time left
    (POST is not: it appends a row each time). *)
Theorem served_twice_is_served_once (env env' : environment) (req : HttpRequest.t)
    (db : store) :
  same_user env env' ->
  toLowerCase (HttpRequest.method req) <> "post" ->
  snd (module_exports env' req (snd (module_exports env req db)))
  = snd (module_exports env req db).
Proof.
  intros Hsame Hnot. rewrite (same_user_same_response env env') by assumption.
  destruct Hsame as (user & Hres & _).
  pose proof (module_exports_call env req db) as Hcall.
  remember (snd (module_exports env req db)) as db1 eqn:Hdb1.
  destruct Hcall as [ | Hm Hd | Hm Hd | user1 Hres1 Hm | Hm Hb | user1 Hres1 Hm Hb ].
  - now symmetry.
  - assert (Hbody : nullish (HttpRequest.body req) = None).
    { destruct (HttpRequest.body req) as [[]|]; simpl in *; congruence. }
    unfold module_exports.
    rewrite (try_block_put env req user Hres _ Hm Hbody), Hd. simpl.
    apply setColumn_twice. discriminate.
  - destruct (nullish (HttpRequest.body req)) as [what|] eqn:Hbody.
    + destruct (try_block_nullish env req user Hres
                  (TodoDatabase.setColumn (get_prop (HttpRequest.body req) "id")
                     columns.isCompleted
                     (one_or_zero (get_prop (HttpRequest.body req) "isCompleted")) db)
                  what (or_introl Hm) Hbody) as [err Herr].
      unfold module_exports. rewrite Herr. simpl.
      destruct (try_block_nullish env req user Hres db what (or_introl Hm) Hbody)
        as [err0 Herr0].
      unfold module_exports in Hdb1. now rewrite Herr0 in Hdb1.
    + unfold module_exports.
      rewrite (try_block_put env req user Hres _ Hm Hbody), Hd. simpl.
      apply setColumn_twice. discriminate.
  - congruence.
  - unfold module_exports.
    rewrite (try_block_delete_by_id env req user Hres _ Hm Hb). simpl.
    apply deleteBy_twice.
  - assert (user1 = user) as -> by congruence.
    unfold module_exports.
    rewrite (try_block_delete_own env req user Hres _ Hm Hb). simpl.
    apply deleteBy_twice.
Qed.

(** ** What only POST does *)

(** A request that is not a POST creates no row object and adds no row:
    the row objects are those that existed, and [data] is what is left of it
    after the rows that a DELETE removed. *)
Theorem only_post_adds_rows (env : environment) (req : HttpRequest.t) (db : store) :
  toLowerCase (HttpRequest.method req) <> "post" ->
  (forall item,
     is_Some (heap (snd (module_exports env req db)) !! item)
     <-> is_Some (heap db !! item))
  /\ sublist (data (snd (module_exports env req db))) (data db).
Proof.
  intros Hnot.
  destruct (module_exports_call env req db)
    as [ | Hm Hd | Hm Hd | user1 Hres1 Hm | Hm Hb | user1 Hres1 Hm Hb ];
    try congruence; simpl.
  - split; reflexivity.
  - split; [|reflexivity]. intros item.
    pose proof (setColumn_loop_keeps (get_prop (HttpRequest.body req) "id")
                  columns.description
                  (get_prop (HttpRequest.body req) "description")
                  (fun _ => tt) ltac:(reflexivity) (data db) (heap db) item) as Hkeep.
    rewrite <- !not_eq_None_Some.
    destruct (fold_left _ _ _ !! item), (heap db !! item); simpl in Hkeep;
      split; congruence.
  - split; [|reflexivity]. intros item.
    pose proof (setColumn_loop_keeps (get_prop (HttpRequest.body req) "id")
                  columns.isCompleted
                  (one_or_zero (get_prop (HttpRequest.body req) "isCompleted"))
                  (fun _ => tt) ltac:(reflexivity) (data db) (heap db) item) as Hkeep.
    rewrite <- !not_eq_None_Some.
    destruct (fold_left _ _ _ !! item), (heap db !! item); simpl in Hkeep;
      split; congruence.
  - split; [reflexivity | apply filter_sublist].
  - split; [reflexivity | apply filter_sublist].
Qed.

(** ** POST, then DELETE of the new row *)

(** After any sequence of requests on the initial store, a POST for which
    [uuid.v4()] returns an identifier that no row has, followed by a DELETE
    whose body holds that identifier, gives back the [data] from before the
    POST, and the rows in it are untouched. *)
Theorem post_then_delete_restores_data
    (steps : list (environment * HttpRequest.t))
    (env env' : environment) (req req' : HttpRequest.t) (user user' : UserInfo) :
  getUserInfo env = Return user ->
  toLowerCase (HttpRequest.method req) = "post" ->
  nullish (HttpRequest.body req) = None ->
  ~ In (VString (uuid_v4 env)) (ids (run steps database)) ->
  getUserInfo env' = Return user' ->
  toLowerCase (HttpRequest.method req') = "delete" ->
  get_prop (HttpRequest.body req') "id" = VString (uuid_v4 env) ->
  let db := run steps database in
  let db1 := snd (module_exports env req db) in
  let db2 := snd (module_exports env' req' db1) in
  data db1 = data db ++ [fresh (dom (heap db))]
  /\ data db2 = data db
  /\ (forall item, In item (data db) -> heap db2 !! item = heap db !! item).
Proof.
  intros Hres Hm Hbody Hnew Hres' Hm' Hid db db1 db2.
  assert (Htruthy : body_truthy (HttpRequest.body req') = true).
  { destruct (HttpRequest.body req') as [v|props]; [discriminate | reflexivity]. }
  assert (Hdb1 : db1 = TodoDatabase.insert (uuid_v4 env)
            (get_prop (HttpRequest.body req) "description")
            (VString (objectId user))
            (one_or_zero (get_prop (HttpRequest.body req) "isCompleted"))
            (get_prop (HttpRequest.body req) "channelOrChatId") db).
  { subst db1. unfold module_exports.
    now rewrite (try_block_post env req user Hres db Hm Hbody). }
  assert (Hdb2 : db2 = TodoDatabase.deleteBy columns.id (VString (uuid_v4 env)) db1).
  { subst db2. unfold module_exports.
    now rewrite (try_block_delete_by_id env' req' user' Hres' db1 Hm' Htruthy), Hid. }
  clearbody db1 db2. subst db1 db2 db.
  destruct (run_wf steps database database_wf) as [_ Halloc].
  pose proof (run_ids_are_strings steps database database_ids_are_strings) as Hstr.
  generalize dependent (run steps database). intros db Hnew Halloc Hstr.
  assert (Hold : forall item, In item (data db) ->
            <[fresh (dom (heap db)) :=
                row.Row (VString (uuid_v4 env))
                  (get_prop (HttpRequest.body req) "description")
                  (VString (objectId user))
                  (one_or_zero (get_prop (HttpRequest.body req) "isCompleted"))
                  (get_prop (HttpRequest.body req) "channelOrChatId")]> (heap db)
            !! item = heap db !! item).
  { intros item Hin. apply lookup_insert_ne.
    intros Heq. destruct (Halloc item Hin) as [r Hr].
    rewrite <- Heq, fresh_unallocated in Hr. discriminate. }
  split; [reflexivity|]. split; [|exact Hold].
  simpl. rewrite List.filter_app. simpl.
  rewrite filter_all.
  - unfold read. rewrite lookup_insert_eq. simpl.
    rewrite String.eqb_refl. simpl. apply app_nil_r.
  - intros item Hin. apply negb_true_iff. unfold read. rewrite (Hold item Hin).
    destruct (Halloc item Hin) as [r Hr]. rewrite Hr.
    destruct (Hstr item r Hr) as [s Hs]. destruct r as [i d o c ch].
    simpl in *. subst i. simpl. apply not_true_iff_false.
    rewrite String.eqb_eq. intros ->. apply Hnew. unfold ids.
    apply in_map_iff. exists item. split; [|assumption].
    unfold read. now rewrite Hr.
Qed.

(** ** The status of the response *)



(** ** The scenario, continued *)

Lemma isCompleted_is_0_or_1_witness :
  row.isCompleted bob = VNumber 0%float \/ row.isCompleted bob = VNumber 1%float.
Proof.
  apply (isCompleted_is_0_or_1 two_posts 2%positive bob).
  vm_compute. reflexivity.
Defined.

Lemma id_and_chat_never_change_witness :
  exists r',
    heap (run [(resolved U2 "id-3", put_both); (resolved U1 "id-4", delete_own)]
            (run two_posts database)) !! 1%positive = Some r'
    /\ row.id r' = VString "id-1"
    /\ row.channelOrChatId r' = VString "chat1".
Proof.
  apply (id_and_chat_never_change
           [(resolved U2 "id-3", put_both); (resolved U1 "id-4", delete_own)]
           (run two_posts database) 1%positive milk).
  vm_compute. reflexivity.
Defined.

Lemma put_never_clears_a_description_witness :
  exists r,
    heap (run two_posts database) !! 1%positive = Some r
    /\ (VString "buy milk" = row.description r
        \/ (ToBoolean (VString "buy milk") = true
            /\ VString "buy milk" = VString "")).
Proof.
  apply (put_never_clears_a_description (resolved U2 "id-3") put_empty_description
           (run two_posts database) 1%positive
           (row.Row (VString "id-1") (VString "buy milk") (VString "U1")
              (VNumber 0%float) (VString "chat1")));
    vm_compute; reflexivity.
Defined.

Lemma get_reads_one_chat_witness :
  exists items,
    module_exports (resolved U2 "id-4") get_nowhere
      (run (two_posts ++ [(resolved U1 "id-3", post_nowhere)]) database)
    = ({| Response.status := 200;
          Response.body := Response.Body (ResultArray items) |},
       run (two_posts ++ [(resolved U1 "id-3", post_nowhere)]) database)
    /\ In 3%positive items /\ ~ In 1%positive items.
Proof.
  destruct (get_reads_one_chat (resolved U2 "id-4") get_nowhere U2
              (run (two_posts ++ [(resolved U1 "id-3", post_nowhere)]) database)
              eq_refl eq_refl) as (items & Hget & _ & _ & Hnone).
  exists items. split; [exact Hget|]. split.
  - apply (Hnone eq_refl). split; vm_compute; [tauto | reflexivity].
  - intros Hin. apply (Hnone eq_refl) in Hin as [_ Hundef].
    vm_compute in Hundef. discriminate.
Defined.

Lemma caller_is_not_checked_witness :
  module_exports (resolved U2 "id-3") (delete_id "id-1") (run two_posts database)
  = module_exports (resolved U1 "id-3") (delete_id "id-1") (run two_posts database).
Proof.
  apply (caller_is_not_checked (resolved U2 "id-3") (resolved U1 "id-3")
           (delete_id "id-1") U2 U1); [reflexivity | reflexivity |].
  right. right. split; reflexivity.
Defined.

Lemma put_keeps_every_listing_witness :
  TodoDatabase.listBy columns.channelOrChatId (VString "chat1")
    (snd (module_exports (resolved U2 "id-3") put_both (run two_posts database)))
  = [1%positive; 2%positive].
Proof.
  destruct (put_keeps_every_listing (resolved U2 "id-3") put_both
              (run two_posts database) columns.channelOrChatId (VString "chat1")
              eq_refl) as [_ Hlist]; [discriminate..|].
  rewrite Hlist. vm_compute. reflexivity.
Defined.

Lemma served_twice_is_served_once_witness :
  snd (module_exports (resolved U2 "id-4") put_both
         (snd (module_exports (resolved U2 "id-3") put_both
                 (run two_posts database))))
  = snd (module_exports (resolved U2 "id-3") put_both (run two_posts database)).
Proof.
  apply (served_twice_is_served_once (resolved U2 "id-3") (resolved U2 "id-4")
           put_both).
  - exists U2. split; reflexivity.
  - discriminate.
Defined.

Lemma only_post_adds_rows_witness :
  sublist
    (data (snd (module_exports (resolved U1 "id-3") delete_own
                  (run two_posts database))))
    (data (run two_posts database)).
Proof.
  apply (only_post_adds_rows (resolved U1 "id-3") delete_own).
  discriminate.
Defined.

Lemma post_then_delete_restores_data_witness :
  data (snd (module_exports (resolved U2 "id-4") (delete_id "id-3")
               (snd (module_exports (resolved U1 "id-3") post_nowhere
                       (run two_posts database)))))
  = data (run two_posts database).
Proof.
  assert (Hnew : ~ In (VString "id-3") (ids (run two_posts database))).
  { vm_compute. intuition discriminate. }
  destruct (post_then_delete_restores_data two_posts
              (resolved U1 "id-3") (resolved U2 "id-4")
              post_nowhere (delete_id "id-3") U1 U2
              eq_refl eq_refl eq_refl Hnew eq_refl eq_refl eq_refl)
    as (_ & Hdata & _).
  exact Hdata.
Defined.

